(** * traceLib: tracing initialisation helpers and the trace-context middleware

    A shallow embedding of the Go packages of the repository:

    - [traceLib_provider] : src/unnamed/part_000 (package traceLib,
      [InitTracerProvider] and [ExtractTraceInfoMiddleware]);
    - [tracer]            : src/tracer.go, first file (package tracer,
      [InitTracer] returning a [trace.Tracer]);
    - [traceLib]          : src/tracer.go, second file (package traceLib,
      [InitTracer] returning a [*trace.Tracer], and the middleware).

    The repository is glue over the OpenTelemetry SDK, the Jaeger exporter
    and net/http.  Those are not part of the repository: what the glue code
    observes of them is modelled in the first half of the file (process
    state, panics, [defer], the W3C [traceparent] header), and what is
    opaque to it (whether the Jaeger client can be built, what the process'
    default resource is) is an interface, [SDK], over which every
    definition and theorem is parametric. *)

From Stdlib Require Import Strings.Byte Ascii String NArith.
From stdpp Require Import base option strings list vector gmap.

Local Open Scope string_scope.
Local Open Scope list_scope.

(** * Go values *)

(** The [error] interface, observed through its [Error()] method.
    [errors.New] builds the value carrying the given text. *)
Record error := mkError { Error : string }.

Definition errors_New (text : string) : error := mkError text.

#[global] Instance byte_eq_dec : EqDecision byte := Byte.byte_eq_dec.

(** * encoding/hex, lower case

    Trace and span identifiers travel as lower-case hexadecimal. *)

Definition hexdigit (n : N) : ascii :=
  match n with
  | 0 => "0" | 1 => "1" | 2 => "2" | 3 => "3" | 4 => "4" | 5 => "5"
  | 6 => "6" | 7 => "7" | 8 => "8" | 9 => "9" | 10 => "a" | 11 => "b"
  | 12 => "c" | 13 => "d" | 14 => "e" | _ => "f"
  end%N%char.

(** The digit classes of the header grammar are [0-9a-f]: upper case is
    not a digit here. *)
Definition fromHexChar (c : ascii) : option N :=
  let n := N_of_ascii c in
  if (48 <=? n)%N && (n <=? 57)%N then Some (n - 48)%N
  else if (97 <=? n)%N && (n <=? 102)%N then Some (n - 97 + 10)%N
  else None.

Definition hexByte (b : byte) : string :=
  String (hexdigit (Byte.to_N b / 16))
    (String (hexdigit (Byte.to_N b mod 16)) EmptyString).

Fixpoint hex_EncodeToString (bs : list byte) : string :=
  match bs with
  | [] => ""
  | b :: bs' => hexByte b +:+ hex_EncodeToString bs'
  end.

(** [readHex n s] reads [n] bytes, that is [2 * n] hexadecimal digits, off
    the front of [s] and returns them with the rest of [s]. *)
Fixpoint readHex (n : nat) (s : string) : option (vec byte n * string) :=
  match n with
  | O => Some ([#], s)
  | S n' =>
      match s with
      | String c1 (String c2 rest) =>
          hi ← fromHexChar c1;
          lo ← fromHexChar c2;
          b ← Byte.of_N (16 * hi + lo);
          '(bs, rest') ← readHex n' rest;
          Some (b ::: bs, rest')
      | _ => None
      end
  end.

(** One literal byte of the grammar. *)
Definition readChar (c : ascii) (s : string) : option string :=
  match s with
  | String c' rest => if Ascii.eqb c c' then Some rest else None
  | EmptyString => None
  end.

(** * go.opentelemetry.io/otel/trace: span contexts *)

(** [trace.TraceID] is [[16]byte], [trace.SpanID] is [[8]byte]. *)
Abbreviation TraceID := (vec byte 16).
Abbreviation SpanID := (vec byte 8).

Definition nilTraceID : TraceID := vreplicate 16 x00.
Definition nilSpanID : SpanID := vreplicate 8 x00.

Definition FlagsSampled : byte := x01.

Definition byte_and (a b : byte) : byte :=
  default x00 (Byte.of_N (N.land (Byte.to_N a) (Byte.to_N b))).

Record SpanContext := mkSpanContext {
  sc_TraceID : TraceID;
  sc_SpanID : SpanID;
  sc_TraceFlags : byte;
  sc_TraceState : string;
  sc_Remote : bool
}.

(** The zero value [trace.SpanContext{}]: no active trace. *)
Definition SpanContext_zero : SpanContext :=
  mkSpanContext nilTraceID nilSpanID x00 "" false.

Definition TraceID_IsValid (t : TraceID) : bool := negb (bool_decide (t = nilTraceID)).
Definition SpanID_IsValid (s : SpanID) : bool := negb (bool_decide (s = nilSpanID)).

Definition IsValid (sc : SpanContext) : bool :=
  TraceID_IsValid (sc_TraceID sc) && SpanID_IsValid (sc_SpanID sc).

Definition WithRemote (sc : SpanContext) (remote : bool) : SpanContext :=
  mkSpanContext (sc_TraceID sc) (sc_SpanID sc) (sc_TraceFlags sc)
    (sc_TraceState sc) remote.

(** [TraceID.String()] and [SpanID.String()]. *)
Definition TraceID_String (t : TraceID) : string := hex_EncodeToString (vec_to_list t).
Definition SpanID_String (s : SpanID) : string := hex_EncodeToString (vec_to_list s).

(** * context.Context

    A context carries the current span (package trace keeps it under a
    private key) next to whatever other values the host put there. *)
Record Context := mkContext {
  ctx_values : gmap string string;
  ctx_currentSpan : option SpanContext
}.

Definition context_Background : Context := mkContext ∅ None.

Definition SpanContextFromContext (ctx : Context) : SpanContext :=
  default SpanContext_zero (ctx_currentSpan ctx).

Definition ContextWithRemoteSpanContext (ctx : Context) (sc : SpanContext) : Context :=
  mkContext (ctx_values ctx) (Some (WithRemote sc true)).

(** * net/http headers as a propagation carrier *)

Definition toUpper (c : ascii) : ascii :=
  let n := N_of_ascii c in
  if (97 <=? n)%N && (n <=? 122)%N then ascii_of_N (n - 32) else c.

Definition toLower (c : ascii) : ascii :=
  let n := N_of_ascii c in
  if (65 <=? n)%N && (n <=? 90)%N then ascii_of_N (n + 32) else c.

Fixpoint canonicalMIMEHeaderKey (upper : bool) (s : string) : string :=
  match s with
  | EmptyString => EmptyString
  | String c s' =>
      String (if upper then toUpper c else toLower c)
        (canonicalMIMEHeaderKey (Ascii.eqb c "-") s')
  end.

(** [textproto.CanonicalMIMEHeaderKey] on keys made of token characters:
    the first letter and every letter after a hyphen in upper case, the
    others in lower case. *)
Definition CanonicalMIMEHeaderKey (s : string) : string :=
  canonicalMIMEHeaderKey true s.

(** [http.Header] is [map[string][]string]; [propagation.HeaderCarrier] is
    the same map seen as a carrier. *)
Abbreviation Header := (gmap string (list string)).

Definition Header_Get (h : Header) (key : string) : string :=
  match h !! CanonicalMIMEHeaderKey key with
  | Some (v :: _) => v
  | _ => ""
  end.

Definition Header_Set (h : Header) (key value : string) : Header :=
  <[CanonicalMIMEHeaderKey key := [value]]> h.

Definition traceparentHeader : string := "traceparent".
Definition tracestateHeader : string := "tracestate".

(** * go.opentelemetry.io/otel/attribute and sdk/resource *)

Inductive Value :=
  | STRING (s : string)
  | INT64 (z : Z)
  | BOOL (b : bool).

(** [attribute.KeyValue]; [k.String(v)] builds a string-valued pair. *)
Definition KeyValue : Type := string * Value.

Definition Key_String (k : string) (v : string) : KeyValue := (k, STRING v).

(** A resource is a schema URL and a set of attributes, at most one value
    per key. *)
Record Resource := mkResource {
  res_schemaURL : string;
  res_attributes : gmap string Value
}.

Definition resource_Empty : Resource := mkResource "" ∅.

(** Later pairs win over earlier ones; pairs without a key are dropped. *)
Definition resource_NewWithAttributes (schemaURL : string) (attrs : list KeyValue)
  : Resource :=
  mkResource schemaURL
    (fold_left (fun m kv => if String.eqb (fst kv) "" then m else <[fst kv := snd kv]> m)
       attrs ∅).

Definition errMergeConflictSchemaURL : error :=
  errors_New "cannot merge resource due to conflicting Schema URL".

(** [resource.Merge(a, b)]: the attributes of [b] overwrite those of [a];
    two different non-empty schema URLs are a conflict, reported with the
    empty resource. *)
Definition resource_Merge (a b : Resource) : Resource * option error :=
  let merged url := (mkResource url (res_attributes b ∪ res_attributes a), None) in
  if String.eqb (res_schemaURL a) "" then merged (res_schemaURL b)
  else if String.eqb (res_schemaURL b) "" then merged (res_schemaURL a)
  else if String.eqb (res_schemaURL a) (res_schemaURL b) then merged (res_schemaURL a)
  else (resource_Empty, Some errMergeConflictSchemaURL).

(** Package semconv/v1.12.0. *)
Definition semconv_SchemaURL : string := "https://opentelemetry.io/schemas/1.12.0".
Definition semconv_ServiceNameKey : string := "service.name".

(** * go.opentelemetry.io/otel/exporters/jaeger: endpoint options *)

Inductive CollectorEndpointOption :=
  | WithEndpoint (endpoint : string).

Inductive EndpointOption :=
  | WithCollectorEndpoint (options : list CollectorEndpointOption).

(** * What the glue code cannot see into

    Whether the Jaeger client can be built for an endpoint, which resource
    the process detects for itself, and how a [tracestate] header is
    normalised, are decided inside the dependencies. *)
Class SDK := {
  (** [*jaeger.Exporter] *)
  Exporter : Type;
  (** the outcome of building the Jaeger client for an endpoint option *)
  jaeger_client : EndpointOption -> Exporter + error;
  (** the resource detected for this process *)
  process_resource : Resource;
  (** [trace.ParseTraceState] followed by [String()], empty on error *)
  parse_tracestate : string -> string
}.

(** * The W3C trace-context propagator, [propagation.TraceContext] *)

(** The rest of a line: no line feed in it. *)
Fixpoint noLineFeed (s : string) : bool :=
  match s with
  | EmptyString => true
  | String c rest => negb (Ascii.eqb c "010") && noLineFeed rest
  end.

(** [version "-" trace-id "-" parent-id "-" trace-flags], then nothing or a
    hyphen and the rest of the line. *)
Definition parseTraceparent (h : string) : option (byte * TraceID * SpanID * byte) :=
  '(ver, s) ← readHex 1 h;
  s ← readChar "-" s;
  '(tid, s) ← readHex 16 s;
  s ← readChar "-" s;
  '(sid, s) ← readHex 8 s;
  s ← readChar "-" s;
  '(opts, s) ← readHex 1 s;
  match s with
  | EmptyString => Some (ver !!! 0%fin, tid, sid, opts !!! 0%fin)
  | String c rest =>
      if Ascii.eqb c "-" && noLineFeed rest
      then Some (ver !!! 0%fin, tid, sid, opts !!! 0%fin) else None
  end.

(** A propagator is given by what it reads out of a carrier and what it
    writes into one. *)
Record TextMapPropagator := mkPropagator {
  prop_inject : SpanContext -> Header -> Header;
  prop_extract : Header -> SpanContext;
  Fields : list string
}.

(** [Extract(ctx, carrier)]: the context with the span context that was
    read as remote parent when that is valid, the given context otherwise. *)
Definition Extract (p : TextMapPropagator) (ctx : Context) (carrier : Header) : Context :=
  let sc := prop_extract p carrier in
  if IsValid sc then ContextWithRemoteSpanContext ctx sc else ctx.

(** [Inject(ctx, carrier)] writes nothing for a context without a valid
    span context. *)
Definition Inject (p : TextMapPropagator) (ctx : Context) (carrier : Header) : Header :=
  let sc := SpanContextFromContext ctx in
  if IsValid sc then prop_inject p sc carrier else carrier.

(** The propagator registered when none was set: it reads and writes
    nothing. *)
Definition noopPropagator : TextMapPropagator :=
  mkPropagator (fun _ carrier => carrier) (fun _ => SpanContext_zero) [].

Section TraceContext.
Context `{sdk : SDK}.

(** The header value [Inject] writes for a span context. *)
Definition traceparent (sc : SpanContext) : string :=
  "00-" +:+ TraceID_String (sc_TraceID sc) +:+ "-" +:+ SpanID_String (sc_SpanID sc)
    +:+ "-" +:+ hexByte (byte_and (sc_TraceFlags sc) FlagsSampled).

Definition TraceContext_inject (sc : SpanContext) (carrier : Header) : Header :=
  let carrier :=
    if String.eqb (sc_TraceState sc) "" then carrier
    else Header_Set carrier tracestateHeader (sc_TraceState sc) in
  Header_Set carrier traceparentHeader (traceparent sc).

(** What [Extract] reads: the zero span context unless the [traceparent]
    header is in the grammar, its version is not [ff], under version [00]
    the flags are at most [02], and neither identifier is all zeros.  Of
    the flags only the sampled bit is kept. *)
Definition TraceContext_extract (carrier : Header) : SpanContext :=
  let h := Header_Get carrier traceparentHeader in
  if String.eqb h "" then SpanContext_zero
  else
    match parseTraceparent h with
    | None => SpanContext_zero
    | Some (ver, tid, sid, opts) =>
        if (254 <? Byte.to_N ver)%N then SpanContext_zero
        else if Byte.eqb ver x00 && (2 <? Byte.to_N opts)%N then SpanContext_zero
        else
          let sc :=
            mkSpanContext tid sid (byte_and opts FlagsSampled)
              (parse_tracestate (Header_Get carrier tracestateHeader)) true in
          if IsValid sc then sc else SpanContext_zero
    end.

(** [propagation.TraceContext{}] *)
Definition propagation_TraceContext : TextMapPropagator :=
  mkPropagator TraceContext_inject TraceContext_extract
    [traceparentHeader; tracestateHeader].
End TraceContext.

(** * Process state *)

(** A [*sdktrace.TracerProvider] is an index into the heap of providers. *)
Abbreviation TracerProviderPtr := nat (only parsing).

(** [http.ResponseWriter]: an index into the responses being written. *)
Abbreviation ResponseWriter := nat (only parsing).

Inductive SpanProcessor `{sdk : SDK} :=
  | BatchSpanProcessor (exp : option Exporter).
Arguments BatchSpanProcessor {sdk} exp.

(** [sdktrace.WithBatcher] and [sdktrace.WithResource]. *)
Inductive TracerProviderOption `{sdk : SDK} :=
  | WithBatcher (exp : option Exporter)
  | WithResource (r : Resource).
Arguments WithBatcher {sdk} exp.
Arguments WithResource {sdk} r.

Record TracerProvider `{sdk : SDK} := mkTracerProvider {
  tp_spanProcessors : list SpanProcessor;
  tp_resource : Resource;
  tp_namedTracer : list string;
  tp_isShutdown : bool
}.
Arguments mkTracerProvider {sdk} _ _ _ _.

(** [trace.Tracer] as handed out by a provider of the SDK. *)
Record Tracer := mkTracer {
  tracer_provider : TracerProviderPtr;
  tracer_instrumentationName : string
}.

Record Response := mkResponse {
  resp_status : option nat;
  resp_header : Header;
  resp_body : string
}.

(** The calls made into the tracing dependencies, most recent last. *)
Inductive Call :=
  | call_jaeger_New (o : EndpointOption)
  | call_NewTracerProvider (tp : TracerProviderPtr)
  | call_SetTracerProvider (tp : TracerProviderPtr)
  | call_SetTextMapPropagator
  | call_Tracer (tp : TracerProviderPtr) (name : string)
  | call_Shutdown (tp : TracerProviderPtr).

Record World `{sdk : SDK} := mkWorld {
  (** the process environment, [os.Getenv] *)
  environ : gmap string string;
  (** the tracer providers allocated so far *)
  providers : list TracerProvider;
  (** package otel's global tracer provider, [None] until one is set *)
  otel_tracerProvider : option TracerProviderPtr;
  (** package otel's global propagator *)
  otel_propagator : TextMapPropagator;
  (** the responses under construction *)
  responses : list Response;
  calls : list Call
}.
Arguments mkWorld {sdk} _ _ _ _ _ _.

Section Updates.
Context `{sdk : SDK}.

Definition World_log (w : World) (c : Call) : World :=
  mkWorld (environ w) (providers w) (otel_tracerProvider w) (otel_propagator w)
    (responses w) (calls w ++ [c]).

Definition World_setProviders (w : World) (ps : list TracerProvider) : World :=
  mkWorld (environ w) ps (otel_tracerProvider w) (otel_propagator w)
    (responses w) (calls w).

Definition World_setResponses (w : World) (rs : list Response) : World :=
  mkWorld (environ w) (providers w) (otel_tracerProvider w) (otel_propagator w)
    rs (calls w).

Definition World_setTracerProvider (w : World) (tp : TracerProviderPtr) : World :=
  mkWorld (environ w) (providers w) (Some tp) (otel_propagator w)
    (responses w) (calls w).

Definition World_setPropagator (w : World) (p : TextMapPropagator) : World :=
  mkWorld (environ w) (providers w) (otel_tracerProvider w) p
    (responses w) (calls w).

Definition World_setenv (w : World) (env : gmap string string) : World :=
  mkWorld env (providers w) (otel_tracerProvider w) (otel_propagator w)
    (responses w) (calls w).
End Updates.

(** * Computations: state, return or panic *)

Inductive Outcome (A : Type) :=
  | Returned (a : A)
  | Panicked (v : error).
Arguments Returned {A} a.
Arguments Panicked {A} v.

Section Model.
Context `{sdk : SDK}.

Definition M (A : Type) : Type := World -> Outcome A * World.

#[global] Instance M_ret : MRet M := fun A a w => (Returned a, w).

#[global] Instance M_bind : MBind M := fun A B f m w =>
  match m w with
  | (Returned a, w') => f a w'
  | (Panicked v, w') => (Panicked v, w')
  end.

Definition panic {A} (v : error) : M A := fun w => (Panicked v, w).

(** [defer d] at the head of [body]: [d] runs when [body] is left, by
    return or by panic; the result of [body] was fixed before. *)
Definition defer {A} (d : M unit) (body : M A) : M A := fun w =>
  let '(o, w1) := body w in
  match d w1 with
  | (Returned _, w2) => (o, w2)
  | (Panicked v, w2) => (Panicked v, w2)
  end.

Definition gets {A} (f : World -> A) : M A := fun w => (Returned (f w), w).
Definition modify (f : World -> World) : M unit := fun w => (Returned tt, f w).

Definition log (c : Call) : M unit := modify (fun w => World_log w c).
Definition set_providers (ps : list TracerProvider) : M unit :=
  modify (fun w => World_setProviders w ps).
Definition set_responses (rs : list Response) : M unit :=
  modify (fun w => World_setResponses w rs).

Definition errNilDereference : error :=
  errors_New "runtime error: invalid memory address or nil pointer dereference".

(** ** os *)

(** [os.Getenv]: the value, empty when the variable is not present. *)
Definition os_Getenv (key : string) : M string :=
  gets (fun w => default "" (environ w !! key)).

(** ** jaeger *)

(** [jaeger.New]: an exporter and no error, or no exporter and the
    client's error. *)
Definition jaeger_New (o : EndpointOption) : M (option Exporter * option error) :=
  log (call_jaeger_New o);;
  match jaeger_client o with
  | inl exp => mret (Some exp, None)
  | inr err => mret (None, Some err)
  end.

(** ** sdk/resource *)

Definition resource_Default : Resource := process_resource.

(** ** sdk/trace *)

Definition applyOption (cfg : TracerProvider) (o : TracerProviderOption) : TracerProvider :=
  match o with
  | WithBatcher exp =>
      mkTracerProvider (tp_spanProcessors cfg ++ [BatchSpanProcessor exp])
        (tp_resource cfg) (tp_namedTracer cfg) (tp_isShutdown cfg)
  | WithResource r =>
      mkTracerProvider (tp_spanProcessors cfg) r (tp_namedTracer cfg) (tp_isShutdown cfg)
  end.

(** [sdktrace.NewTracerProvider(opts...)] allocates a provider with the
    options applied in order. *)
Definition sdktrace_NewTracerProvider (opts : list TracerProviderOption)
  : M TracerProviderPtr :=
  ps ← gets providers;
  let tp := length ps in
  set_providers
    (ps ++ [fold_left applyOption opts (mkTracerProvider [] resource_Default [] false)]);;
  log (call_NewTracerProvider tp);;
  mret tp.

(** The name a provider gives a tracer asked for without one. *)
Definition defaultTracerName : string := "go.opentelemetry.io/otel/sdk/tracer".

(** [if name == "" { name = defaultTracerName }] *)
Definition tracerName (name : string) : string :=
  if String.eqb name "" then defaultTracerName else name.

(** [tp.Tracer(name)]: the tracer of the provider under that name, the
    default name standing in for an empty one. *)
Definition TracerProvider_Tracer (tp : TracerProviderPtr) (name : string) : M Tracer :=
  ps ← gets providers;
  match ps !! tp with
  | None => panic errNilDereference
  | Some p =>
      set_providers
        (<[tp := mkTracerProvider (tp_spanProcessors p) (tp_resource p)
                   (tp_namedTracer p ++ [tracerName name]) (tp_isShutdown p)]> ps);;
      log (call_Tracer tp name);;
      mret (mkTracer tp (tracerName name))
  end.

(** [tp.Shutdown(ctx)] *)
Definition TracerProvider_Shutdown (tp : TracerProviderPtr) (ctx : Context)
  : M (option error) :=
  ps ← gets providers;
  match ps !! tp with
  | None => panic errNilDereference
  | Some p =>
      set_providers
        (<[tp := mkTracerProvider (tp_spanProcessors p) (tp_resource p)
                   (tp_namedTracer p) true]> ps);;
      log (call_Shutdown tp);;
      mret None
  end.

(** ** otel: process-wide globals *)

Definition otel_SetTracerProvider (tp : TracerProviderPtr) : M unit :=
  modify (fun w => World_setTracerProvider w tp);;
  log (call_SetTracerProvider tp).

Definition otel_SetTextMapPropagator (p : TextMapPropagator) : M unit :=
  modify (fun w => World_setPropagator w p);;
  log call_SetTextMapPropagator.

Definition otel_GetTextMapPropagator : M TextMapPropagator := gets otel_propagator.

(** ** net/http *)

Record Request := mkRequest {
  req_Method : string;
  req_URL : string;
  req_Header : Header;
  req_Body : string;
  req_ctx : Context
}.

(** [r.Context()] *)
Definition Request_Context (r : Request) : Context := req_ctx r.

(** [r.WithContext(ctx)]: a copy of [r] with its context changed. *)
Definition Request_WithContext (r : Request) (ctx : Context) : Request :=
  mkRequest (req_Method r) (req_URL r) (req_Header r) (req_Body r) ctx.

(** [http.Handler], with [ServeHTTP] and the adapter [http.HandlerFunc]. *)
Definition Handler : Type := ResponseWriter -> Request -> M unit.
Definition HandlerFunc (f : ResponseWriter -> Request -> M unit) : Handler := f.
Definition ServeHTTP (h : Handler) (w : ResponseWriter) (r : Request) : M unit := h w r.

(** [w.Write(data)]: the first write fixes the status to 200. *)
Definition ResponseWriter_Write (w : ResponseWriter) (data : string) : M unit :=
  rs ← gets responses;
  match rs !! w with
  | None => panic errNilDereference
  | Some resp =>
      set_responses
        (<[w := mkResponse (Some (default 200 (resp_status resp))) (resp_header resp)
                  (resp_body resp +:+ data)]> rs)
  end.
End Model.

(** * The source: src/unnamed/part_000, package traceLib *)

Module traceLib_provider.
Section Src.
Context `{sdk : SDK}.

Definition newExporter : M (option Exporter * option error) :=
  addr ← os_Getenv "JAEGER_ADDRESS";
  if String.eqb addr "" then
    mret (None, Some (errors_New
      "couldn't read .env variables for JAEGER_ADDRESS. Please check if you provided it correctly"))
  else
    '(exp, err) ← jaeger_New (WithCollectorEndpoint [WithEndpoint addr]);
    match err with
    | Some e => mret (None, Some e)
    | None => mret (exp, None)
    end.

Definition newTraceProvider (exp : option Exporter) (serviceName : string)
  : M TracerProviderPtr :=
  let '(r, err) :=
    resource_Merge resource_Default
      (resource_NewWithAttributes semconv_SchemaURL
         [Key_String semconv_ServiceNameKey serviceName]) in
  match err with
  | Some e => panic e
  | None => sdktrace_NewTracerProvider [WithBatcher exp; WithResource r]
  end.

Definition InitTracerProvider (serviceName : string)
  : M (option TracerProviderPtr * option error) :=
  '(exp, err) ← newExporter;
  match err with
  | Some e => mret (None, Some e)
  | None =>
      tp ← newTraceProvider exp serviceName;
      otel_SetTracerProvider tp;;
      otel_SetTextMapPropagator propagation_TraceContext;;
      mret (Some tp, None)
  end.

Definition ExtractTraceInfoMiddleware (next : Handler) : Handler :=
  HandlerFunc (fun w r =>
    p ← otel_GetTextMapPropagator;
    let ctx := Extract p (Request_Context r) (req_Header r) in
    ServeHTTP next w (Request_WithContext r ctx)).
End Src.
End traceLib_provider.

(** * The source: src/tracer.go, package tracer *)

Module tracer.
Section Src.
Context `{sdk : SDK}.

Definition newExporter : M (option Exporter * option error) :=
  addr ← os_Getenv "JAEGER_ADDRESS";
  if String.eqb addr "" then
    mret (None, Some (errors_New
      "couldn't read .env variables for JAEGER_ADDRESS. Please check if you provided it correctly"))
  else
    '(exp, err) ← jaeger_New (WithCollectorEndpoint [WithEndpoint addr]);
    match err with
    | Some e => mret (None, Some e)
    | None => mret (exp, None)
    end.

Definition newTraceProvider (exp : option Exporter) (serviceName : string)
  : M TracerProviderPtr :=
  let '(r, err) :=
    resource_Merge resource_Default
      (resource_NewWithAttributes semconv_SchemaURL
         [Key_String semconv_ServiceNameKey serviceName]) in
  match err with
  | Some e => panic e
  | None => sdktrace_NewTracerProvider [WithBatcher exp; WithResource r]
  end.

(** The result is the interface value [trace.Tracer]. *)
Definition InitTracer (serviceName : string) : M (option Tracer * option error) :=
  let ctx := context_Background in
  '(exp, err) ← newExporter;
  match err with
  | Some e => mret (None, Some e)
  | None =>
      tp ← newTraceProvider exp serviceName;
      defer (_ ← TracerProvider_Shutdown tp ctx; mret tt)
        (otel_SetTracerProvider tp;;
         tracer ← TracerProvider_Tracer tp serviceName;
         otel_SetTextMapPropagator propagation_TraceContext;;
         mret (Some tracer, None))
  end.
End Src.
End tracer.

(** * The source: src/tracer.go, package traceLib *)

Module traceLib.
Section Src.
Context `{sdk : SDK}.

Definition newExporter : M (option Exporter * option error) :=
  addr ← os_Getenv "JAEGER_ADDRESS";
  if String.eqb addr "" then
    mret (None, Some (errors_New
      "couldn't read .env variables for JAEGER_ADDRESS. Please check if you provided it correctly"))
  else
    '(exp, err) ← jaeger_New (WithCollectorEndpoint [WithEndpoint addr]);
    match err with
    | Some e => mret (None, Some e)
    | None => mret (exp, None)
    end.

Definition newTraceProvider (exp : option Exporter) (serviceName : string)
  : M TracerProviderPtr :=
  let '(r, err) :=
    resource_Merge resource_Default
      (resource_NewWithAttributes semconv_SchemaURL
         [Key_String semconv_ServiceNameKey serviceName]) in
  match err with
  | Some e => panic e
  | None => sdktrace_NewTracerProvider [WithBatcher exp; WithResource r]
  end.

(** The result is [&tracer], a pointer to the tracer just obtained:
    [Some] of that tracer. *)
Definition InitTracer (serviceName : string) : M (option Tracer * option error) :=
  let ctx := context_Background in
  '(exp, err) ← newExporter;
  match err with
  | Some e => mret (None, Some e)
  | None =>
      tp ← newTraceProvider exp serviceName;
      defer (_ ← TracerProvider_Shutdown tp ctx; mret tt)
        (otel_SetTracerProvider tp;;
         tracer ← TracerProvider_Tracer tp serviceName;
         otel_SetTextMapPropagator propagation_TraceContext;;
         mret (Some tracer, None))
  end.

Definition ExtractTraceInfoMiddleware (next : Handler) : Handler :=
  HandlerFunc (fun w r =>
    p ← otel_GetTextMapPropagator;
    let ctx := Extract p (Request_Context r) (req_Header r) in
    ServeHTTP next w (Request_WithContext r ctx)).
End Src.
End traceLib.

(** * A stub of the dependencies

    An instance of [SDK] to run the definitions on: the exporter is the
    endpoint it was built for, the client refuses endpoints that are not
    http(s) URLs, the detected resource is that of an SDK built against
    semconv v1.12.0, and a [tracestate] header is kept as it is. *)

Definition stub_resource (schemaURL : string) : Resource :=
  resource_NewWithAttributes schemaURL
    [Key_String "service.name" "unknown_service:go";
     Key_String "telemetry.sdk.language" "go";
     Key_String "telemetry.sdk.name" "opentelemetry"].

Definition stub_client (o : EndpointOption) : string + error :=
  match o with
  | WithCollectorEndpoint [WithEndpoint addr] =>
      if String.prefix "http" addr then inl addr
      else inr (errors_New "unsupported protocol scheme")
  | _ => inr (errors_New "unsupported options")
  end.

Definition stubSDK : SDK :=
  {| Exporter := string;
     jaeger_client := stub_client;
     process_resource := stub_resource semconv_SchemaURL;
     parse_tracestate := fun s => s |}.

(** The same process with an SDK built against a later semconv. *)
Definition stubSDK_1_17 : SDK :=
  {| Exporter := string;
     jaeger_client := stub_client;
     process_resource := stub_resource "https://opentelemetry.io/schemas/1.17.0";
     parse_tracestate := fun s => s |}.

(** A process at start: nothing allocated, nothing registered. *)
Definition world0 `{sdk : SDK} (env : gmap string string) : World :=
  mkWorld env [] None noopPropagator [mkResponse None ∅ ""] [].

Definition env_jaeger : gmap string string :=
  {[ "JAEGER_ADDRESS" := "http://localhost:14268/api/traces" ]}.

(** The example of the W3C recommendation:
    [00-4bf92f3577b34da6a3ce929d0e0e4736-00f067aa0ba902b7-01]. *)
Definition sc_example : SpanContext :=
  mkSpanContext
    [# x4b; xf9; x2f; x35; x77; xb3; x4d; xa6; xa3; xce; x92; x9d; x0e; x0e; x47; x36]
    [# x00; xf0; x67; xaa; x0b; xa9; x02; xb7]
    x01 "" false.

Definition header_traced : Header :=
  {[ "Traceparent" := ["00-4bf92f3577b34da6a3ce929d0e0e4736-00f067aa0ba902b7-01"] ]}.

(** An inbound request with a [traceparent] header. *)
Definition req_traced : Request :=
  mkRequest "GET" "/orders" header_traced "" context_Background.

(** An inbound request without tracing headers. *)
Definition req_plain : Request :=
  mkRequest "GET" "/orders" ∅ "" context_Background.

(** A request without tracing headers whose context already carries a
    span, as left there by a handler further out in the chain. *)
Definition req_plain_in_span : Request :=
  mkRequest "GET" "/orders" ∅ "" (mkContext ∅ (Some sc_example)).

(** A handler that answers with the trace identifier it sees. *)
Definition echoTraceID `{sdk : SDK} : Handler :=
  HandlerFunc (fun w r =>
    ResponseWriter_Write w
      (TraceID_String (sc_TraceID (SpanContextFromContext (Request_Context r))))).

(** A handler that answers whether it runs inside a trace. *)
Definition echoActive `{sdk : SDK} : Handler :=
  HandlerFunc (fun w r =>
    ResponseWriter_Write w
      (if IsValid (SpanContextFromContext (Request_Context r)) then "active" else "none")).

(** The stub process after an [InitTracerProvider] that found no
    JAEGER_ADDRESS, its error logged and ignored by the host. *)
Definition world_uninitialised : World (sdk := stubSDK) :=
  snd (traceLib_provider.InitTracerProvider "checkout-svc" (world0 ∅)).

(** The stub process after a successful [InitTracerProvider]. *)
Definition world_initialised : World (sdk := stubSDK) :=
  snd (traceLib_provider.InitTracerProvider "checkout-svc" (world0 env_jaeger)).

(** * Vocabulary of the statements *)

(** The error of [newExporter] for a missing collector address. *)
Definition errMissingAddress : error :=
  errors_New
    "couldn't read .env variables for JAEGER_ADDRESS. Please check if you provided it correctly".

(** The endpoint option [newExporter] builds for an address. *)
Definition collectorAt (addr : string) : EndpointOption :=
  WithCollectorEndpoint [WithEndpoint addr].

(** The resource [newTraceProvider] merges into the process default, and
    the merge. *)
Definition serviceResource (serviceName : string) : Resource :=
  resource_NewWithAttributes semconv_SchemaURL
    [Key_String semconv_ServiceNameKey serviceName].

Definition mergedResource `{sdk : SDK} (serviceName : string) : Resource * option error :=
  resource_Merge resource_Default (serviceResource serviceName).

(** The provider [newTraceProvider] allocates. *)
Definition batchedProvider `{sdk : SDK} (exp : option Exporter) (r : Resource)
  : TracerProvider :=
  mkTracerProvider [BatchSpanProcessor exp] r [] false.

(** * Running computations *)

Ltac run :=
  repeat (progress (cbv beta iota delta
    [mbind mret M_bind M_ret gets modify log set_providers set_responses panic
     os_Getenv jaeger_New otel_SetTracerProvider otel_SetTextMapPropagator
     otel_GetTextMapPropagator HandlerFunc ServeHTTP]; cbn [fst snd])).

(** * Hexadecimal round trip *)

Lemma byte_nibbles (b : byte) :
  fromHexChar (hexdigit (Byte.to_N b / 16)) = Some (Byte.to_N b / 16)%N
  /\ fromHexChar (hexdigit (Byte.to_N b mod 16)) = Some (Byte.to_N b mod 16)%N
  /\ Byte.of_N (16 * (Byte.to_N b / 16) + Byte.to_N b mod 16) = Some b.
Proof. destruct b; vm_compute; auto. Qed.

Lemma readHex_hexByte (n : nat) (b : byte) (s : string) :
  readHex (S n) (hexByte b +:+ s)
  = '(bs, rest) ← readHex n s; Some (b ::: bs, rest).
Proof.
  destruct (byte_nibbles b) as (Hhi & Hlo & Hb).
  unfold hexByte.
  change (String ?c1 (String ?c2 EmptyString) +:+ s) with (String c1 (String c2 s)).
  cbn [readHex].
  rewrite Hhi. cbn [mbind option_bind]. rewrite Hlo. cbn [mbind option_bind].
  rewrite Hb. reflexivity.
Qed.

Lemma readHex_encode (n : nat) (v : vec byte n) (rest : string) :
  readHex n (hex_EncodeToString (vec_to_list v) +:+ rest) = Some (v, rest).
Proof.
  induction v as [|b n v IH]; [reflexivity|].
  cbn [vec_to_list hex_EncodeToString].
  replace ((hexByte b +:+ hex_EncodeToString (vec_to_list v)) +:+ rest)
    with (hexByte b +:+ (hex_EncodeToString (vec_to_list v) +:+ rest))
    by reflexivity.
  rewrite readHex_hexByte, IH. reflexivity.
Qed.

Lemma readHex_one (b : byte) (s : string) :
  readHex 1 (hexByte b +:+ s) = Some ([# b], s).
Proof. rewrite readHex_hexByte. reflexivity. Qed.

Lemma readChar_hyphen (s : string) : readChar "-" ("-" +:+ s) = Some s.
Proof. reflexivity. Qed.

(** * The [traceparent] header round trip *)

Lemma byte_and_sampled (f : byte) :
  (2 <? Byte.to_N (byte_and f FlagsSampled))%N = false
  /\ byte_and (byte_and f FlagsSampled) FlagsSampled = byte_and f FlagsSampled.
Proof. destruct f; vm_compute; auto. Qed.

Lemma parseTraceparent_traceparent (sc : SpanContext) :
  parseTraceparent (traceparent sc)
  = Some (x00, sc_TraceID sc, sc_SpanID sc, byte_and (sc_TraceFlags sc) FlagsSampled).
Proof.
  unfold parseTraceparent, traceparent, TraceID_String, SpanID_String.
  change ("00-" +:+ ?r) with (hexByte x00 +:+ ("-" +:+ r)).
  rewrite readHex_one. cbn [mbind option_bind].
  rewrite readChar_hyphen. cbn [mbind option_bind].
  rewrite readHex_encode. cbn [mbind option_bind].
  rewrite readChar_hyphen. cbn [mbind option_bind].
  rewrite readHex_encode. cbn [mbind option_bind].
  rewrite readChar_hyphen. cbn [mbind option_bind].
  replace (hexByte (byte_and (sc_TraceFlags sc) FlagsSampled))
    with (hexByte (byte_and (sc_TraceFlags sc) FlagsSampled) +:+ "")
    by (unfold hexByte; reflexivity).
  rewrite readHex_one. reflexivity.
Qed.

Lemma traceparent_nonempty (sc : SpanContext) : String.eqb (traceparent sc) "" = false.
Proof. reflexivity. Qed.

Section TraceContextFacts.
Context `{sdk : SDK}.

(** Extraction inverts the header encoding of a valid span context: the
    identifiers come back as they were, the flags reduced to the sampled
    bit, the context marked remote. *)
Lemma TraceContext_extract_traceparent (carrier : Header) (sc : SpanContext) :
  IsValid sc = true ->
  Header_Get carrier traceparentHeader = traceparent sc ->
  TraceContext_extract carrier
  = mkSpanContext (sc_TraceID sc) (sc_SpanID sc)
      (byte_and (sc_TraceFlags sc) FlagsSampled)
      (parse_tracestate (Header_Get carrier tracestateHeader)) true.
Proof.
  intros Hvalid Hget. unfold TraceContext_extract.
  rewrite Hget, traceparent_nonempty, parseTraceparent_traceparent.
  destruct (byte_and_sampled (sc_TraceFlags sc)) as [Hle Hidem].
  rewrite Hle, Hidem.
  change (254 <? Byte.to_N x00)%N with false.
  rewrite andb_false_r.
  change (IsValid (mkSpanContext (sc_TraceID sc) (sc_SpanID sc) ?f ?ts ?rm))
    with (IsValid sc).
  rewrite Hvalid. reflexivity.
Qed.

(** Without a [traceparent] header nothing is extracted. *)
Lemma TraceContext_extract_absent (carrier : Header) :
  Header_Get carrier traceparentHeader = "" ->
  TraceContext_extract carrier = SpanContext_zero.
Proof. intros Hget. unfold TraceContext_extract. rewrite Hget. reflexivity. Qed.

(** Nor from a header value outside the grammar. *)
Lemma TraceContext_extract_malformed (carrier : Header) :
  parseTraceparent (Header_Get carrier traceparentHeader) = None ->
  TraceContext_extract carrier = SpanContext_zero.
Proof.
  intros Hparse. unfold TraceContext_extract. rewrite Hparse.
  destruct (String.eqb _ _); reflexivity.
Qed.

(** Whatever is extracted, it is valid or it is the zero value. *)
Lemma TraceContext_extract_invalid (carrier : Header) :
  IsValid (TraceContext_extract carrier) = false ->
  TraceContext_extract carrier = SpanContext_zero.
Proof.
  unfold TraceContext_extract.
  repeat match goal with
         | |- context [if ?b then _ else _] => destruct b eqn:?
         | |- context [match ?o with Some _ => _ | None => _ end] => destruct o as [[[[? ?] ?] ?]|]
         end; congruence.
Qed.

Lemma traceparent_of_inject (sc : SpanContext) (carrier : Header) :
  Header_Get (TraceContext_inject sc carrier) traceparentHeader = traceparent sc.
Proof.
  unfold TraceContext_inject, Header_Get, Header_Set.
  rewrite lookup_insert_eq. reflexivity.
Qed.

(** Header encoding, then extraction: the trace identifier of a valid span
    context survives [Inject] followed by [Extract]. *)
Lemma TraceContext_round_trip (ctx0 ctx : Context) (carrier : Header) :
  IsValid (SpanContextFromContext ctx0) = true ->
  sc_TraceID (SpanContextFromContext
                (Extract propagation_TraceContext ctx
                   (Inject propagation_TraceContext ctx0 carrier)))
  = sc_TraceID (SpanContextFromContext ctx0).
Proof.
  intros Hvalid. unfold Inject, Extract. rewrite Hvalid.
  cbn [prop_inject prop_extract propagation_TraceContext].
  rewrite (TraceContext_extract_traceparent _ _ Hvalid (traceparent_of_inject _ _)).
  change (IsValid (mkSpanContext (sc_TraceID ?sc) (sc_SpanID ?sc) ?f ?ts ?rm))
    with (IsValid sc).
  rewrite Hvalid. reflexivity.
Qed.
End TraceContextFacts.

(** * The three files share their helpers *)

Section Copies.
Context `{sdk : SDK}.

Lemma tracer_newExporter_eq : tracer.newExporter = traceLib_provider.newExporter.
Proof. reflexivity. Qed.

Lemma traceLib_newExporter_eq : traceLib.newExporter = traceLib_provider.newExporter.
Proof. reflexivity. Qed.

Lemma tracer_newTraceProvider_eq :
  tracer.newTraceProvider = traceLib_provider.newTraceProvider.
Proof. reflexivity. Qed.

Lemma traceLib_newTraceProvider_eq :
  traceLib.newTraceProvider = traceLib_provider.newTraceProvider.
Proof. reflexivity. Qed.

Lemma traceLib_InitTracer_eq : traceLib.InitTracer = tracer.InitTracer.
Proof. reflexivity. Qed.

Lemma traceLib_middleware_eq :
  traceLib.ExtractTraceInfoMiddleware = traceLib_provider.ExtractTraceInfoMiddleware.
Proof. reflexivity. Qed.
End Copies.

(** * Exporter and provider construction *)

Section Construction.
Context `{sdk : SDK}.

Lemma newExporter_unfold (w : World) :
  traceLib_provider.newExporter w
  = let addr := default "" (environ w !! "JAEGER_ADDRESS") in
    if String.eqb addr "" then (Returned (None, Some errMissingAddress), w)
    else
      (match jaeger_client (collectorAt addr) with
       | inl exp => Returned (Some exp, None)
       | inr e => Returned (None, Some e)
       end, World_log w (call_jaeger_New (collectorAt addr))).
Proof.
  unfold traceLib_provider.newExporter. run. cbv zeta.
  destruct (String.eqb _ _); [reflexivity|].
  fold (collectorAt (default "" (environ w !! "JAEGER_ADDRESS"))).
  destruct (jaeger_client _); reflexivity.
Qed.

Lemma newTraceProvider_unfold (exp : option Exporter) (serviceName : string) (w : World) :
  traceLib_provider.newTraceProvider exp serviceName w
  = match mergedResource serviceName with
    | (_, Some e) => (Panicked e, w)
    | (r, None) =>
        (Returned (length (providers w)),
         World_log
           (World_setProviders w (providers w ++ [batchedProvider exp r]))
           (call_NewTracerProvider (length (providers w))))
    end.
Proof.
  unfold traceLib_provider.newTraceProvider, mergedResource, serviceResource.
  destruct (resource_Merge _ _) as [r [e|]]; reflexivity.
Qed.
End Construction.

(** * The initialisation entry points, path by path *)

Section Initialisation.
Context `{sdk : SDK}.

Lemma InitTracerProvider_unfold (serviceName : string) (w : World) :
  traceLib_provider.InitTracerProvider serviceName w
  = match traceLib_provider.newExporter w with
    | (Returned (_, Some e), w1) => (Returned (None, Some e), w1)
    | (Returned (exp, None), w1) =>
        match traceLib_provider.newTraceProvider exp serviceName w1 with
        | (Returned tp, w2) =>
            (Returned (Some tp, None),
             World_log
               (World_setPropagator
                  (World_log (World_setTracerProvider w2 tp) (call_SetTracerProvider tp))
                  propagation_TraceContext)
               call_SetTextMapPropagator)
        | (Panicked v, w2) => (Panicked v, w2)
        end
    | (Panicked v, w1) => (Panicked v, w1)
    end.
Proof.
  unfold traceLib_provider.InitTracerProvider. run.
  destruct (traceLib_provider.newExporter w) as [[[exp [e|]]|v] w1]; reflexivity.
Qed.

Lemma Tracer_run (tp : nat) (name : string) (w : World) (p : TracerProvider) :
  providers w !! tp = Some p ->
  TracerProvider_Tracer tp name w
  = (Returned (mkTracer tp (tracerName name)),
     World_log
       (World_setProviders w
          (<[tp := mkTracerProvider (tp_spanProcessors p) (tp_resource p)
                     (tp_namedTracer p ++ [tracerName name]) (tp_isShutdown p)]> (providers w)))
       (call_Tracer tp name)).
Proof. intros Hp. unfold TracerProvider_Tracer. run. rewrite Hp. reflexivity. Qed.

Lemma Shutdown_run (tp : nat) (ctx : Context) (w : World) (p : TracerProvider) :
  providers w !! tp = Some p ->
  TracerProvider_Shutdown tp ctx w
  = (Returned None,
     World_log
       (World_setProviders w
          (<[tp := mkTracerProvider (tp_spanProcessors p) (tp_resource p)
                     (tp_namedTracer p) true]> (providers w)))
       (call_Shutdown tp)).
Proof. intros Hp. unfold TracerProvider_Shutdown. run. rewrite Hp. reflexivity. Qed.

(** What [InitTracer] does once the provider [p] is allocated, last on
    the heap. *)
Lemma InitTracer_tail (serviceName : string) (w : World)
    (ps : list TracerProvider) (p : TracerProvider) :
  providers w = ps ++ [p] ->
  defer (_ ← TracerProvider_Shutdown (length ps) context_Background; mret tt)
    (otel_SetTracerProvider (length ps);;
     tracer ← TracerProvider_Tracer (length ps) serviceName;
     otel_SetTextMapPropagator propagation_TraceContext;;
     mret (Some tracer, @None error)) w
  = (Returned (Some (mkTracer (length ps) (tracerName serviceName)), None),
     mkWorld (environ w)
       (ps ++ [mkTracerProvider (tp_spanProcessors p) (tp_resource p)
                 (tp_namedTracer p ++ [tracerName serviceName]) true])
       (Some (length ps)) propagation_TraceContext (responses w)
       (calls w ++ [call_SetTracerProvider (length ps);
                    call_Tracer (length ps) serviceName;
                    call_SetTextMapPropagator; call_Shutdown (length ps)])).
Proof.
  intros Hps.
  assert (Hlook : forall q : TracerProvider, (ps ++ [q]) !! length ps = Some q).
  { intros q. apply list_lookup_middle. reflexivity. }
  assert (Hins : forall q q' : TracerProvider,
             <[length ps := q']> (ps ++ [q]) = ps ++ [q']).
  { intros q q'. rewrite insert_app_r_alt by lia. rewrite Nat.sub_diag. reflexivity. }
  unfold defer. run.
  erewrite Tracer_run by (cbn; rewrite Hps; apply Hlook).
  cbn [World_log World_setProviders World_setTracerProvider World_setPropagator
       environ providers otel_tracerProvider otel_propagator responses calls].
  rewrite Hps, Hins.
  erewrite Shutdown_run by (cbn; apply Hlook).
  cbn [World_log World_setProviders World_setTracerProvider World_setPropagator
       environ providers otel_tracerProvider otel_propagator responses calls
       tp_spanProcessors tp_resource tp_namedTracer tp_isShutdown].
  rewrite Hins.
  unfold World_log, World_setProviders, World_setTracerProvider, World_setPropagator.
  cbn [environ providers otel_tracerProvider otel_propagator responses calls].
  rewrite <- !app_assoc. reflexivity.
Qed.
Lemma InitTracer_unfold (serviceName : string) (w : World) :
  tracer.InitTracer serviceName w
  = match traceLib_provider.newExporter w with
    | (Returned (_, Some e), w1) => (Returned (None, Some e), w1)
    | (Returned (exp, None), w1) =>
        match mergedResource serviceName with
        | (_, Some e) => (Panicked e, w1)
        | (r, None) =>
            let tp := length (providers w1) in
            (Returned (Some (mkTracer tp (tracerName serviceName)), None),
             mkWorld (environ w1)
               (providers w1 ++ [mkTracerProvider [BatchSpanProcessor exp] r
                                   [tracerName serviceName] true])
               (Some tp) propagation_TraceContext (responses w1)
               (calls w1 ++ [call_NewTracerProvider tp; call_SetTracerProvider tp;
                             call_Tracer tp serviceName; call_SetTextMapPropagator;
                             call_Shutdown tp]))
        end
    | (Panicked v, w1) => (Panicked v, w1)
    end.
Proof.
  unfold tracer.InitTracer.
  change tracer.newExporter with traceLib_provider.newExporter.
  change tracer.newTraceProvider with traceLib_provider.newTraceProvider.
  cbv zeta. unfold mbind at 1. unfold M_bind at 1.
  destruct (traceLib_provider.newExporter w) as [[[exp [e|]]|v] w1]; try reflexivity.
  unfold mbind at 1. unfold M_bind at 1.
  rewrite newTraceProvider_unfold.
  destruct (mergedResource serviceName) as [r [e|]]; [reflexivity|].
  erewrite InitTracer_tail by reflexivity.
  unfold World_log, World_setProviders, batchedProvider.
  cbn [environ providers otel_tracerProvider otel_propagator responses calls
       tp_spanProcessors tp_resource tp_namedTracer tp_isShutdown].
  rewrite <- !app_assoc. reflexivity.
Qed.

Lemma InitTracerProvider_paths (serviceName : string) (w : World) :
  traceLib_provider.InitTracerProvider serviceName w
  = match traceLib_provider.newExporter w with
    | (Returned (_, Some e), w1) => (Returned (None, Some e), w1)
    | (Returned (exp, None), w1) =>
        match mergedResource serviceName with
        | (_, Some e) => (Panicked e, w1)
        | (r, None) =>
            let tp := length (providers w1) in
            (Returned (Some tp, None),
             mkWorld (environ w1) (providers w1 ++ [batchedProvider exp r])
               (Some tp) propagation_TraceContext (responses w1)
               (calls w1 ++ [call_NewTracerProvider tp; call_SetTracerProvider tp;
                             call_SetTextMapPropagator]))
        end
    | (Panicked v, w1) => (Panicked v, w1)
    end.
Proof.
  rewrite InitTracerProvider_unfold.
  destruct (traceLib_provider.newExporter w) as [[[exp [e|]]|v] w1]; try reflexivity.
  rewrite newTraceProvider_unfold.
  destruct (mergedResource serviceName) as [r [e|]]; [reflexivity|].
  unfold World_log, World_setProviders, World_setTracerProvider, World_setPropagator.
  cbn [environ providers otel_tracerProvider otel_propagator responses calls].
  rewrite <- !app_assoc. reflexivity.
Qed.
End Initialisation.

(** * Initialisation without a collector address *)

Section MissingAddress.
Context `{sdk : SDK}.

Lemma newExporter_missing (w : World) :
  default "" (environ w !! "JAEGER_ADDRESS") = "" ->
  traceLib_provider.newExporter w = (Returned (None, Some errMissingAddress), w).
Proof. intros H. rewrite newExporter_unfold. cbv zeta. rewrite H. reflexivity. Qed.

Lemma init_missing (serviceName : string) (w : World) :
  default "" (environ w !! "JAEGER_ADDRESS") = "" ->
  traceLib_provider.InitTracerProvider serviceName w
    = (Returned (None, Some errMissingAddress), w)
  /\ tracer.InitTracer serviceName w = (Returned (None, Some errMissingAddress), w)
  /\ traceLib.InitTracer serviceName w = (Returned (None, Some errMissingAddress), w).
Proof.
  intros H. change traceLib.InitTracer with tracer.InitTracer.
  rewrite InitTracerProvider_paths, InitTracer_unfold.
  rewrite (newExporter_missing w H). auto.
Qed.
End MissingAddress.

(** C1: when JAEGER_ADDRESS is missing from the environment,
    [InitTracerProvider] and both [InitTracer] variants return a nil
    provider or tracer together with a non-nil error, and the message of
    that error is the fixed text naming the variable; nothing of the
    process state is touched. *)
Theorem init_without_address `{sdk : SDK} (serviceName : string) (w : World) :
  environ w !! "JAEGER_ADDRESS" = None ->
  traceLib_provider.InitTracerProvider serviceName w
    = (Returned (None, Some errMissingAddress), w)
  /\ tracer.InitTracer serviceName w = (Returned (None, Some errMissingAddress), w)
  /\ traceLib.InitTracer serviceName w = (Returned (None, Some errMissingAddress), w)
  /\ Error errMissingAddress
     = "couldn't read .env variables for JAEGER_ADDRESS. Please check if you provided it correctly".
Proof.
  intros Henv.
  destruct (init_missing serviceName w) as (H1 & H2 & H3); [by rewrite Henv|].
  auto.
Qed.

Lemma init_without_address_witness :
  environ (world0 (sdk := stubSDK) ∅) !! "JAEGER_ADDRESS" = None
  /\ traceLib_provider.InitTracerProvider (sdk := stubSDK) "checkout-svc" (world0 ∅)
     = (Returned (None, Some errMissingAddress), world0 ∅).
Proof.
  split; [reflexivity|].
  apply (init_without_address (sdk := stubSDK) "checkout-svc" (world0 ∅)).
  reflexivity.
Defined.

(** C9: a JAEGER_ADDRESS set to the empty string is treated as an absent
    one: from any process state, with the variable removed and with the
    variable set to the empty string, the exporter factory and every
    initialisation entry point give the same result, the nil value with the
    missing-configuration error, and leave the state as it was. *)
Theorem empty_address_as_absent `{sdk : SDK} (serviceName : string) (w : World) :
  let absent := World_setenv w (delete "JAEGER_ADDRESS" (environ w)) in
  let empty := World_setenv w (<["JAEGER_ADDRESS" := ""]> (environ w)) in
  (traceLib_provider.newExporter absent = (Returned (None, Some errMissingAddress), absent)
   /\ traceLib_provider.newExporter empty = (Returned (None, Some errMissingAddress), empty)
   /\ tracer.newExporter absent = (Returned (None, Some errMissingAddress), absent)
   /\ tracer.newExporter empty = (Returned (None, Some errMissingAddress), empty)
   /\ traceLib.newExporter absent = (Returned (None, Some errMissingAddress), absent)
   /\ traceLib.newExporter empty = (Returned (None, Some errMissingAddress), empty))
  /\ (traceLib_provider.InitTracerProvider serviceName absent
        = (Returned (None, Some errMissingAddress), absent)
      /\ traceLib_provider.InitTracerProvider serviceName empty
        = (Returned (None, Some errMissingAddress), empty))
  /\ (tracer.InitTracer serviceName absent = (Returned (None, Some errMissingAddress), absent)
      /\ tracer.InitTracer serviceName empty = (Returned (None, Some errMissingAddress), empty))
  /\ (traceLib.InitTracer serviceName absent = (Returned (None, Some errMissingAddress), absent)
      /\ traceLib.InitTracer serviceName empty = (Returned (None, Some errMissingAddress), empty)).
Proof.
  intros absent empty.
  assert (Ha : default "" (environ absent !! "JAEGER_ADDRESS") = "").
  { subst absent. cbn [World_setenv environ]. by rewrite lookup_delete_eq. }
  assert (He : default "" (environ empty !! "JAEGER_ADDRESS") = "").
  { subst empty. cbn [World_setenv environ]. by rewrite lookup_insert_eq. }
  change tracer.newExporter with traceLib_provider.newExporter.
  change traceLib.newExporter with traceLib_provider.newExporter.
  rewrite !(newExporter_missing absent Ha), !(newExporter_missing empty He).
  destruct (init_missing serviceName absent Ha) as (A1 & A2 & A3).
  destruct (init_missing serviceName empty He) as (E1 & E2 & E3).
  repeat split; assumption.
Qed.

(** * A failing exporter construction *)

Section ClientError.
Context `{sdk : SDK}.

Lemma newExporter_client (w : World) (addr : string) :
  environ w !! "JAEGER_ADDRESS" = Some addr ->
  addr <> "" ->
  traceLib_provider.newExporter w
  = (match jaeger_client (collectorAt addr) with
     | inl exp => Returned (Some exp, None)
     | inr e => Returned (None, Some e)
     end, World_log w (call_jaeger_New (collectorAt addr))).
Proof.
  intros Henv Hne. rewrite newExporter_unfold, Henv.
  change (default "" (Some addr)) with addr. cbv zeta.
  apply String.eqb_neq in Hne. rewrite Hne. reflexivity.
Qed.
End ClientError.

(** C7: for a non-empty JAEGER_ADDRESS, when the Jaeger client fails to
    build the exporter, [newExporter] (each copy) and every initialisation
    entry point return that very error with a nil exporter, provider or
    tracer; the client was asked once, and nothing else of the process
    state has changed. *)
Theorem exporter_error_returned `{sdk : SDK}
    (serviceName : string) (w : World) (addr : string) (e : error) :
  environ w !! "JAEGER_ADDRESS" = Some addr ->
  addr <> "" ->
  jaeger_client (collectorAt addr) = inr e ->
  let w' := World_log w (call_jaeger_New (collectorAt addr)) in
  traceLib_provider.newExporter w = (Returned (None, Some e), w')
  /\ tracer.newExporter w = (Returned (None, Some e), w')
  /\ traceLib.newExporter w = (Returned (None, Some e), w')
  /\ traceLib_provider.InitTracerProvider serviceName w = (Returned (None, Some e), w')
  /\ tracer.InitTracer serviceName w = (Returned (None, Some e), w')
  /\ traceLib.InitTracer serviceName w = (Returned (None, Some e), w').
Proof.
  intros Henv Hne Hclient w'.
  assert (Hexp : traceLib_provider.newExporter w = (Returned (None, Some e), w')).
  { rewrite (newExporter_client w addr Henv Hne), Hclient. reflexivity. }
  change tracer.newExporter with traceLib_provider.newExporter.
  change traceLib.newExporter with traceLib_provider.newExporter.
  change traceLib.InitTracer with tracer.InitTracer.
  rewrite InitTracerProvider_paths, InitTracer_unfold, Hexp. auto 10.
Qed.

Lemma exporter_error_returned_witness :
  let w := world0 (sdk := stubSDK) {[ "JAEGER_ADDRESS" := "localhost:14268" ]} in
  traceLib_provider.InitTracerProvider "checkout-svc" w
  = (Returned (None, Some (errors_New "unsupported protocol scheme")),
     World_log w (call_jaeger_New (collectorAt "localhost:14268"))).
Proof.
  intros w.
  apply (exporter_error_returned (sdk := stubSDK) "checkout-svc" w "localhost:14268"
           (errors_New "unsupported protocol scheme")).
  - reflexivity.
  - discriminate.
  - reflexivity.
Defined.

(** * Every way out of the exporter factory *)

Section ExporterPaths.
Context `{sdk : SDK}.

Lemma newExporter_inv (w : World) (o : Outcome (option Exporter * option error))
    (w' : World) :
  traceLib_provider.newExporter w = (o, w') ->
  (o = Returned (None, Some errMissingAddress) /\ w' = w)
  \/ exists addr,
       environ w !! "JAEGER_ADDRESS" = Some addr /\ addr <> ""
       /\ w' = World_log w (call_jaeger_New (collectorAt addr))
       /\ ((exists exp, jaeger_client (collectorAt addr) = inl exp
                        /\ o = Returned (Some exp, None))
           \/ (exists e, jaeger_client (collectorAt addr) = inr e
                         /\ o = Returned (None, Some e))).
Proof.
  rewrite newExporter_unfold. cbv zeta.
  destruct (environ w !! "JAEGER_ADDRESS") as [addr|] eqn:Henv.
  - change (default "" (Some addr)) with addr.
    destruct (String.eqb addr "") eqn:Heq.
    + intros [= <- <-]. by left.
    + apply String.eqb_neq in Heq. intros [= <- <-]. right. exists addr.
      repeat split; try done.
      destruct (jaeger_client (collectorAt addr)) as [exp|e]; eauto.
  - intros [= <- <-]. by left.
Qed.
End ExporterPaths.

(** C10: when [InitTracerProvider] or either [InitTracer] returns a non-nil
    error, the global tracer provider and the global propagator are what
    they were before the call (and no provider was allocated): both
    registrations come after the exporter has been built. *)
Theorem init_error_keeps_globals `{sdk : SDK}
    (serviceName : string) (w : World) (e : error) (w' : World) :
  (exists res, traceLib_provider.InitTracerProvider serviceName w
               = (Returned (res, Some e), w'))
  \/ (exists res, tracer.InitTracer serviceName w = (Returned (res, Some e), w'))
  \/ (exists res, traceLib.InitTracer serviceName w = (Returned (res, Some e), w')) ->
  otel_tracerProvider w' = otel_tracerProvider w
  /\ otel_propagator w' = otel_propagator w
  /\ providers w' = providers w.
Proof.
  change traceLib.InitTracer with tracer.InitTracer.
  rewrite InitTracerProvider_paths, InitTracer_unfold.
  destruct (traceLib_provider.newExporter w) as [o w1] eqn:Hexp.
  apply newExporter_inv in Hexp as [[-> ->]|(addr & _ & _ & -> & [(exp & _ & ->)|(e' & _ & ->)])].
  - intros [[res [= _ _ <-]]|[[res [= _ _ <-]]|[res [= _ _ <-]]]]; done.
  - destruct (mergedResource serviceName) as [r [e'|]];
      intros [[res H]|[[res H]|[res H]]]; discriminate H.
  - intros [[res [= _ _ <-]]|[[res [= _ _ <-]]|[res [= _ _ <-]]]]; done.
Qed.

Lemma init_error_keeps_globals_witness :
  let w := world0 (sdk := stubSDK) {[ "JAEGER_ADDRESS" := "localhost:14268" ]} in
  let w' := World_log w (call_jaeger_New (collectorAt "localhost:14268")) in
  otel_tracerProvider w' = otel_tracerProvider w
  /\ otel_propagator w' = otel_propagator w
  /\ providers w' = providers w.
Proof.
  intros w w'.
  apply (init_error_keeps_globals (sdk := stubSDK) "checkout-svc" w
           (errors_New "unsupported protocol scheme") w').
  left. exists None. reflexivity.
Defined.

(** * The resource merge *)

Section Merge.
Context `{sdk : SDK}.

(** The merge fails exactly when the process resource has a schema URL
    and it is not that of semconv v1.12.0. *)
Lemma merge_conflict_iff (serviceName : string) :
  snd (mergedResource serviceName) = Some errMergeConflictSchemaURL
  <-> res_schemaURL process_resource <> ""
      /\ res_schemaURL process_resource <> semconv_SchemaURL.
Proof.
  unfold mergedResource, resource_Merge, resource_Default, serviceResource.
  cbn [res_schemaURL resource_NewWithAttributes].
  destruct (String.eqb (res_schemaURL process_resource) "") eqn:H1.
  { apply String.eqb_eq in H1. cbn. split; [discriminate|]. intros [? _]. done. }
  change (String.eqb semconv_SchemaURL "") with false. cbv iota.
  destruct (String.eqb (res_schemaURL process_resource) semconv_SchemaURL) eqn:H2.
  { apply String.eqb_eq in H2. cbn. split; [discriminate|]. intros [_ ?]. done. }
  apply String.eqb_neq in H1, H2. cbn. done.
Qed.

Lemma merge_error_is_conflict (serviceName : string) (e : error) :
  snd (mergedResource serviceName) = Some e -> e = errMergeConflictSchemaURL.
Proof.
  unfold mergedResource, resource_Merge.
  repeat match goal with |- context [if ?b then _ else _] => destruct b end;
    cbn; congruence.
Qed.

(** A merge that succeeds carries the service name. *)
Lemma merged_service_name (serviceName : string) (r : Resource) :
  mergedResource serviceName = (r, None) ->
  res_attributes r !! semconv_ServiceNameKey = Some (STRING serviceName).
Proof.
  assert (Hb : res_attributes (serviceResource serviceName) !! semconv_ServiceNameKey
               = Some (STRING serviceName)).
  { unfold serviceResource, resource_NewWithAttributes, Key_String.
    cbn. apply lookup_insert_eq. }
  unfold mergedResource, resource_Merge.
  repeat match goal with |- context [if ?b then _ else _] => destruct b end;
    intros [= <-]; cbn [res_attributes];
    by apply lookup_union_Some_l.
Qed.
End Merge.

(** C3: for every exporter handle and service name, when merging the
    process-default resource with the service-name resource fails,
    [newTraceProvider] (each copy) panics with the merge error instead of
    returning, leaving the process state as it was; and that is its only
    way out besides returning a provider: whatever the outcome, it is a
    returned provider after a successful merge or that panic. *)
Theorem newTraceProvider_merge_failure `{sdk : SDK}
    (exp : option Exporter) (serviceName : string) (w : World) (e : error) :
  snd (mergedResource serviceName) = Some e ->
  traceLib_provider.newTraceProvider exp serviceName w = (Panicked e, w)
  /\ tracer.newTraceProvider exp serviceName w = (Panicked e, w)
  /\ traceLib.newTraceProvider exp serviceName w = (Panicked e, w)
  /\ forall exp' name' w0 o w',
       traceLib_provider.newTraceProvider exp' name' w0 = (o, w') ->
       (exists tp, o = Returned tp /\ snd (mergedResource name') = None)
       \/ (exists e', o = Panicked e' /\ snd (mergedResource name') = Some e' /\ w' = w0).
Proof.
  intros Hmerge.
  change tracer.newTraceProvider with traceLib_provider.newTraceProvider.
  change traceLib.newTraceProvider with traceLib_provider.newTraceProvider.
  rewrite newTraceProvider_unfold.
  destruct (mergedResource serviceName) as [r o]. cbn in Hmerge. subst o.
  repeat split; try reflexivity.
  intros exp' name' w0 o w'. rewrite newTraceProvider_unfold.
  destruct (mergedResource name') as [r' [e'|]]; intros [= <- <-]; eauto.
Qed.

Lemma newTraceProvider_merge_failure_witness :
  snd (mergedResource (sdk := stubSDK_1_17) "checkout-svc") = Some errMergeConflictSchemaURL
  /\ traceLib_provider.newTraceProvider (sdk := stubSDK_1_17)
       (Some "http://localhost:14268/api/traces") "checkout-svc" (world0 env_jaeger)
     = (Panicked errMergeConflictSchemaURL, world0 env_jaeger).
Proof.
  split; [reflexivity|].
  apply (newTraceProvider_merge_failure (sdk := stubSDK_1_17)
           (Some "http://localhost:14268/api/traces") "checkout-svc"
           (world0 env_jaeger) errMergeConflictSchemaURL).
  reflexivity.
Defined.

(** * Successful initialisation *)

Section Success.
Context `{sdk : SDK}.

(** A run that returns without error went through a built exporter and
    a merged resource. *)
Lemma InitTracerProvider_success_inv (serviceName : string) (w : World)
    (res : option nat) (w' : World) :
  traceLib_provider.InitTracerProvider serviceName w = (Returned (res, None), w') ->
  exists addr exp r,
    environ w !! "JAEGER_ADDRESS" = Some addr /\ addr <> ""
    /\ jaeger_client (collectorAt addr) = inl exp
    /\ mergedResource serviceName = (r, None)
    /\ res = Some (length (providers w))
    /\ w' = mkWorld (environ w) (providers w ++ [batchedProvider (Some exp) r])
              (Some (length (providers w))) propagation_TraceContext (responses w)
              (calls w ++ [call_jaeger_New (collectorAt addr);
                           call_NewTracerProvider (length (providers w));
                           call_SetTracerProvider (length (providers w));
                           call_SetTextMapPropagator]).
Proof.
  rewrite InitTracerProvider_paths.
  destruct (traceLib_provider.newExporter w) as [o w1] eqn:Hexp.
  apply newExporter_inv in Hexp
    as [[-> ->]|(addr & Henv & Hne & -> & [(exp & Hcl & ->)|(e' & _ & ->)])];
    try discriminate.
  destruct (mergedResource serviceName) as [r [e'|]]; [discriminate|].
  cbv zeta. intros [= <- <-]. exists addr, exp, r.
  repeat split; try done.
  unfold World_log. cbn [environ providers otel_tracerProvider otel_propagator
                         responses calls].
  by rewrite <- app_assoc.
Qed.

Lemma InitTracer_success_inv (serviceName : string) (w : World)
    (res : option Tracer) (w' : World) :
  tracer.InitTracer serviceName w = (Returned (res, None), w') ->
  exists addr exp r,
    environ w !! "JAEGER_ADDRESS" = Some addr /\ addr <> ""
    /\ jaeger_client (collectorAt addr) = inl exp
    /\ mergedResource serviceName = (r, None)
    /\ res = Some (mkTracer (length (providers w)) (tracerName serviceName))
    /\ w' = mkWorld (environ w)
              (providers w
                 ++ [mkTracerProvider [BatchSpanProcessor (Some exp)] r [tracerName serviceName] true])
              (Some (length (providers w))) propagation_TraceContext (responses w)
              (calls w ++ [call_jaeger_New (collectorAt addr);
                           call_NewTracerProvider (length (providers w));
                           call_SetTracerProvider (length (providers w));
                           call_Tracer (length (providers w)) serviceName;
                           call_SetTextMapPropagator;
                           call_Shutdown (length (providers w))]).
Proof.
  rewrite InitTracer_unfold.
  destruct (traceLib_provider.newExporter w) as [o w1] eqn:Hexp.
  apply newExporter_inv in Hexp
    as [[-> ->]|(addr & Henv & Hne & -> & [(exp & Hcl & ->)|(e' & _ & ->)])];
    try discriminate.
  destruct (mergedResource serviceName) as [r [e'|]]; [discriminate|].
  cbv zeta. intros [= <- <-]. exists addr, exp, r.
  repeat split; try done.
  unfold World_log. cbn [environ providers otel_tracerProvider otel_propagator
                         responses calls].
  by rewrite <- app_assoc.
Qed.

(** With an address, a client that builds and a merge that succeeds, both
    initialisers return. *)
Lemma init_runs (serviceName : string) (w : World) (addr : string)
    (exp : Exporter) (r : Resource) :
  environ w !! "JAEGER_ADDRESS" = Some addr ->
  addr <> "" ->
  jaeger_client (collectorAt addr) = inl exp ->
  mergedResource serviceName = (r, None) ->
  (exists w', traceLib_provider.InitTracerProvider serviceName w
              = (Returned (Some (length (providers w)), None), w'))
  /\ (exists w', tracer.InitTracer serviceName w
                 = (Returned (Some (mkTracer (length (providers w)) (tracerName serviceName)), None), w')).
Proof.
  intros Henv Hne Hcl Hmerge.
  rewrite InitTracerProvider_paths, InitTracer_unfold.
  rewrite (newExporter_client w addr Henv Hne), Hcl, Hmerge. cbv zeta. eauto.
Qed.
End Success.

(** C6, as amended: on every run of [InitTracer] that returns without
    error — and both variants run alike: when one returns so, the other
    returns the same tracer and leaves the same state — the tracer
    returned is the one the provider allocated by this very run hands out
    for the service name, bound to the service name when that is not empty
    and to the provider's default tracer name when it is; and when the
    function returns that provider has been shut down: the shutdown is the
    last call made, after the tracer was obtained. *)
Theorem InitTracer_shuts_provider_down `{sdk : SDK}
    (serviceName : string) (w : World) (t : option Tracer) (w' : World) :
  tracer.InitTracer serviceName w = (Returned (t, None), w')
  \/ traceLib.InitTracer serviceName w = (Returned (t, None), w') ->
  let tp := length (providers w) in
  (tracer.InitTracer serviceName w = (Returned (t, None), w')
   /\ traceLib.InitTracer serviceName w = (Returned (t, None), w'))
  /\ t = Some (mkTracer tp (if String.eqb serviceName "" then defaultTracerName
                            else serviceName))
  /\ (serviceName <> "" -> t = Some (mkTracer tp serviceName))
  /\ (exists addr exp r,
        environ w !! "JAEGER_ADDRESS" = Some addr
        /\ jaeger_client (collectorAt addr) = inl exp
        /\ mergedResource serviceName = (r, None)
        /\ providers w'
           = providers w
               ++ [mkTracerProvider [BatchSpanProcessor (Some exp)] r
                     [if String.eqb serviceName "" then defaultTracerName
                      else serviceName] true]
        /\ otel_tracerProvider w' = Some tp
        /\ calls w'
           = calls w ++ [call_jaeger_New (collectorAt addr); call_NewTracerProvider tp;
                         call_SetTracerProvider tp; call_Tracer tp serviceName;
                         call_SetTextMapPropagator; call_Shutdown tp]).
Proof.
  intros H.
  assert (H' : tracer.InitTracer serviceName w = (Returned (t, None), w'))
    by (destruct H as [H|H]; exact H).
  split; [split; exact H'|].
  apply InitTracer_success_inv in H'
    as (addr & exp & r & Henv & _ & Hcl & Hm & -> & ->).
  cbv zeta. cbn [providers calls otel_tracerProvider]. unfold tracerName.
  split; [reflexivity|]. split.
  - intros Hne. apply String.eqb_neq in Hne. by rewrite Hne.
  - exists addr, exp, r. done.
Qed.

Lemma InitTracer_shuts_provider_down_witness :
  let w := world0 (sdk := stubSDK) env_jaeger in
  let t := mkTracer 0 "checkout-svc" in
  exists w' : World (sdk := stubSDK),
    (tracer.InitTracer "checkout-svc" w = (Returned (Some t, None), w')
     /\ traceLib.InitTracer "checkout-svc" w = (Returned (Some t, None), w'))
    /\ providers w'
       = [mkTracerProvider (sdk := stubSDK)
            [BatchSpanProcessor (sdk := stubSDK) (Some "http://localhost:14268/api/traces")]
            (fst (mergedResource (sdk := stubSDK) "checkout-svc")) ["checkout-svc"] true]
    /\ otel_tracerProvider w' = Some 0.
Proof.
  intros w t.
  exists (snd (traceLib.InitTracer "checkout-svc" w)).
  destruct (InitTracer_shuts_provider_down (sdk := stubSDK) "checkout-svc" w (Some t)
              (snd (traceLib.InitTracer "checkout-svc" w)))
    as (Hboth & _ & _ & addr & exp & r & Henv & Hcl & Hm & Hps & Hg & _).
  - right. reflexivity.
  - split; [exact Hboth|]. split; [|exact Hg].
    rewrite Hps. injection Henv as <-. injection Hcl as <-. rewrite Hm. reflexivity.
Defined.

(** C6, as stated, fails for the empty service name: the run returns
    without error, but the tracer it hands back is bound to the provider's
    default tracer name, not to the service name. *)
Lemma InitTracer_empty_service_name :
  let w := world0 (sdk := stubSDK) env_jaeger in
  (exists w', tracer.InitTracer "" w
              = (Returned (Some (mkTracer 0 "go.opentelemetry.io/otel/sdk/tracer"), None), w'))
  /\ (exists w', traceLib.InitTracer "" w
                 = (Returned (Some (mkTracer 0 "go.opentelemetry.io/otel/sdk/tracer"), None), w'))
  /\ ~ (exists tp w', tracer.InitTracer "" w = (Returned (Some (mkTracer tp ""), None), w'))
  /\ ~ (exists tp w', traceLib.InitTracer "" w = (Returned (Some (mkTracer tp ""), None), w')).
Proof.
  intros w.
  assert (Hrun : fst (tracer.InitTracer "" w)
                 = Returned (Some (mkTracer 0 "go.opentelemetry.io/otel/sdk/tracer"), None))
    by reflexivity.
  split; [eexists; reflexivity|]. split; [eexists; reflexivity|].
  split; intros (tp & w' & H);
    change (@traceLib.InitTracer stubSDK) with (@tracer.InitTracer stubSDK) in H;
    rewrite H in Hrun; discriminate Hrun.
Qed.

(** C8: after a call of [InitTracerProvider] that returns a provider and no
    error, with JAEGER_ADDRESS holding [addr], the provider returned has one
    span processor, a batching processor around the exporter the Jaeger
    client built for the collector endpoint [addr], and as resource the
    merge of the process default with the service name, in which
    [service.name] is the service name passed in. *)
Theorem provider_configuration `{sdk : SDK}
    (serviceName : string) (w : World) (addr : string) (tp : nat) (w' : World) :
  environ w !! "JAEGER_ADDRESS" = Some addr ->
  traceLib_provider.InitTracerProvider serviceName w = (Returned (Some tp, None), w') ->
  exists exp r,
    jaeger_client (collectorAt addr) = inl exp
    /\ mergedResource serviceName = (r, None)
    /\ providers w' !! tp
       = Some (mkTracerProvider [BatchSpanProcessor (Some exp)] r [] false)
    /\ res_attributes r !! semconv_ServiceNameKey = Some (STRING serviceName).
Proof.
  intros Henv Hrun.
  apply InitTracerProvider_success_inv in Hrun
    as (addr' & exp & r & Henv' & _ & Hcl & Hmerge & [= ->] & ->).
  assert (addr' = addr) as -> by congruence.
  exists exp, r. repeat split; try done.
  - cbn [providers]. by apply list_lookup_middle.
  - by apply merged_service_name.
Qed.

Lemma provider_configuration_witness :
  exists r,
    providers (snd (traceLib_provider.InitTracerProvider (sdk := stubSDK)
                      "checkout-svc" (world0 env_jaeger))) !! 0
    = Some (mkTracerProvider (sdk := stubSDK)
              [BatchSpanProcessor (sdk := stubSDK) (Some "http://localhost:14268/api/traces")]
              r [] false)
    /\ res_attributes r !! "service.name" = Some (STRING "checkout-svc").
Proof.
  destruct (provider_configuration (sdk := stubSDK) "checkout-svc" (world0 env_jaeger)
              "http://localhost:14268/api/traces" 0
              (snd (traceLib_provider.InitTracerProvider "checkout-svc" (world0 env_jaeger))))
    as (exp & r & Hcl & _ & Hp & Hname).
  - reflexivity.
  - reflexivity.
  - injection Hcl as <-. exists r. split; assumption.
Defined.

(** C2, as amended: for every non-empty JAEGER_ADDRESS and every service
    name, when the Jaeger client builds the exporter and the resource merge
    does not fail, [InitTracerProvider] returns a non-nil provider and a nil
    error, each [InitTracer] returns a non-nil tracer and a nil error, and on
    return the provider allocated by the call is the global tracer provider
    and the TraceContext propagator is the global propagator. *)
Theorem init_success_registers_globals `{sdk : SDK}
    (serviceName : string) (w : World) (addr : string) (exp : Exporter) :
  environ w !! "JAEGER_ADDRESS" = Some addr ->
  addr <> "" ->
  jaeger_client (collectorAt addr) = inl exp ->
  snd (mergedResource serviceName) = None ->
  let tp := length (providers w) in
  providers w !! tp = None
  /\ (exists w',
        traceLib_provider.InitTracerProvider serviceName w = (Returned (Some tp, None), w')
        /\ is_Some (providers w' !! tp)
        /\ otel_tracerProvider w' = Some tp
        /\ otel_propagator w' = propagation_TraceContext)
  /\ (exists t w',
        tracer.InitTracer serviceName w = (Returned (Some t, None), w')
        /\ tracer_provider t = tp
        /\ is_Some (providers w' !! tp)
        /\ otel_tracerProvider w' = Some tp
        /\ otel_propagator w' = propagation_TraceContext)
  /\ (exists t w',
        traceLib.InitTracer serviceName w = (Returned (Some t, None), w')
        /\ tracer_provider t = tp
        /\ is_Some (providers w' !! tp)
        /\ otel_tracerProvider w' = Some tp
        /\ otel_propagator w' = propagation_TraceContext).
Proof.
  intros Henv Hne Hcl Hmerge tp.
  destruct (mergedResource serviceName) as [r o] eqn:Hm. cbn in Hmerge. subst o.
  change traceLib.InitTracer with tracer.InitTracer.
  rewrite InitTracerProvider_paths, InitTracer_unfold.
  rewrite (newExporter_client w addr Henv Hne), Hcl, Hm. cbv zeta.
  unfold World_log. cbn [providers].
  split; [by apply lookup_ge_None_2|].
  split; [|split]; repeat eexists; cbn [providers]; by apply list_lookup_middle.
Qed.

Lemma init_success_registers_globals_witness :
  exists w' : World (sdk := stubSDK),
    traceLib_provider.InitTracerProvider (sdk := stubSDK) "checkout-svc" (world0 env_jaeger)
    = (Returned (Some 0, None), w')
    /\ is_Some (providers w' !! 0)
    /\ otel_tracerProvider w' = Some 0
    /\ otel_propagator w' = propagation_TraceContext (sdk := stubSDK).
Proof.
  apply (init_success_registers_globals (sdk := stubSDK) "checkout-svc" (world0 env_jaeger)
           "http://localhost:14268/api/traces" "http://localhost:14268/api/traces").
  - reflexivity.
  - discriminate.
  - reflexivity.
  - reflexivity.
Defined.

(** C2, as stated, fails where the resource merge does: in a process whose
    SDK detects its default resource under the schema of semconv v1.17.0,
    with JAEGER_ADDRESS set and an exporter that builds, the provider
    initialiser does not return — it panics with the merge conflict, and
    no global was registered. *)
Lemma init_panics_on_schema_conflict :
  let w := world0 (sdk := stubSDK_1_17) env_jaeger in
  let run := traceLib_provider.InitTracerProvider "checkout-svc" w in
  environ w !! "JAEGER_ADDRESS" = Some "http://localhost:14268/api/traces"
  /\ jaeger_client (SDK := stubSDK_1_17) (collectorAt "http://localhost:14268/api/traces")
     = inl "http://localhost:14268/api/traces"
  /\ fst run = Panicked errMergeConflictSchemaURL
  /\ otel_tracerProvider (snd run) = None
  /\ ~ (exists tp w', run = (Returned (Some tp, None), w')).
Proof.
  intros w run.
  assert (Hrun : fst run = Panicked errMergeConflictSchemaURL) by reflexivity.
  repeat split; try reflexivity.
  intros (tp & w' & H). rewrite H in Hrun. discriminate Hrun.
Qed.

(** * The middleware *)

Section Middleware.
Context `{sdk : SDK}.

(** The middleware is the next handler on the request rebound to what the
    registered propagator extracts. *)
Lemma middleware_unfold (next : Handler) (rw : nat) (r : Request) (w : World) :
  ServeHTTP (traceLib_provider.ExtractTraceInfoMiddleware next) rw r w
  = ServeHTTP next rw
      (Request_WithContext r
         (Extract (otel_propagator w) (Request_Context r) (req_Header r))) w.
Proof. reflexivity. Qed.

Lemma WithContext_same (r : Request) : Request_WithContext r (Request_Context r) = r.
Proof. by destruct r. Qed.

Lemma Extract_invalid (p : TextMapPropagator) (ctx : Context) (carrier : Header) :
  IsValid (prop_extract p carrier) = false -> Extract p ctx carrier = ctx.
Proof. intros H. unfold Extract. by rewrite H. Qed.

Lemma echo_run (body : string) (w : World) (resp : Response) :
  responses w = [resp] ->
  responses (snd (ResponseWriter_Write 0 body w))
  = [mkResponse (Some (default 200 (resp_status resp))) (resp_header resp)
       (resp_body resp +:+ body)].
Proof. intros H. unfold ResponseWriter_Write. run. rewrite H. reflexivity. Qed.
End Middleware.

(** C4, as amended: with the TraceContext propagator registered as the
    global propagator (as a successful initialisation leaves it), for every
    request whose [traceparent] header is the encoding of a valid span
    context, the middleware (either copy) invokes the next handler with the
    request rebound to a context whose span context has exactly the trace
    identifier (and the span identifier) of the header, marked remote. *)
Theorem middleware_extracts_trace_id `{sdk : SDK}
    (w : World) (rw : nat) (r : Request) (sc : SpanContext) :
  otel_propagator w = propagation_TraceContext ->
  IsValid sc = true ->
  Header_Get (req_Header r) traceparentHeader = traceparent sc ->
  exists ctx',
    (forall next,
        ServeHTTP (traceLib_provider.ExtractTraceInfoMiddleware next) rw r w
        = ServeHTTP next rw (Request_WithContext r ctx') w
        /\ ServeHTTP (traceLib.ExtractTraceInfoMiddleware next) rw r w
           = ServeHTTP next rw (Request_WithContext r ctx') w)
    /\ sc_TraceID (SpanContextFromContext ctx') = sc_TraceID sc
    /\ sc_SpanID (SpanContextFromContext ctx') = sc_SpanID sc
    /\ sc_Remote (SpanContextFromContext ctx') = true
    /\ ctx_values ctx' = ctx_values (Request_Context r).
Proof.
  intros Hprop Hvalid Hget.
  exists (Extract (otel_propagator w) (Request_Context r) (req_Header r)).
  split; [intros next; split; reflexivity|].
  rewrite Hprop. unfold Extract. cbn [prop_extract propagation_TraceContext].
  rewrite (TraceContext_extract_traceparent _ sc Hvalid Hget).
  change (IsValid (mkSpanContext (sc_TraceID sc) (sc_SpanID sc) ?f ?ts ?rm))
    with (IsValid sc).
  rewrite Hvalid. auto.
Qed.

Lemma middleware_extracts_trace_id_witness :
  exists ctx',
    (forall next,
        ServeHTTP (traceLib_provider.ExtractTraceInfoMiddleware next) 0 req_traced
          world_initialised
        = ServeHTTP next 0 (Request_WithContext req_traced ctx') world_initialised
        /\ ServeHTTP (traceLib.ExtractTraceInfoMiddleware next) 0 req_traced
             world_initialised
           = ServeHTTP next 0 (Request_WithContext req_traced ctx') world_initialised)
    /\ sc_TraceID (SpanContextFromContext ctx') = sc_TraceID sc_example
    /\ sc_SpanID (SpanContextFromContext ctx') = sc_SpanID sc_example
    /\ sc_Remote (SpanContextFromContext ctx') = true
    /\ ctx_values ctx' = ctx_values (Request_Context req_traced).
Proof.
  apply (middleware_extracts_trace_id (sdk := stubSDK) world_initialised 0 req_traced
           sc_example).
  - reflexivity.
  - reflexivity.
  - reflexivity.
Defined.

(** C4, as stated, fails in a process where no initialisation has
    succeeded: after an [InitTracerProvider] that returned the
    missing-address error the global propagator is still the one that reads
    nothing, and a request with a valid [traceparent] header reaches the
    next handler with no trace identifier.  Here the handler answers with
    the identifier it sees. *)
Lemma middleware_without_propagator :
  let w := world_uninitialised in
  Header_Get (req_Header req_traced) traceparentHeader = traceparent sc_example
  /\ IsValid sc_example = true
  /\ resp_body <$> responses
       (snd (ServeHTTP (traceLib_provider.ExtractTraceInfoMiddleware echoTraceID)
               0 req_traced w))
     = ["00000000000000000000000000000000"]
  /\ ~ (exists ctx',
          (forall next,
              ServeHTTP (traceLib_provider.ExtractTraceInfoMiddleware next) 0 req_traced w
              = ServeHTTP next 0 (Request_WithContext req_traced ctx') w)
          /\ sc_TraceID (SpanContextFromContext ctx') = sc_TraceID sc_example).
Proof.
  intros w.
  assert (Hbody : resp_body <$> responses
            (snd (ServeHTTP (traceLib_provider.ExtractTraceInfoMiddleware echoTraceID)
                    0 req_traced w))
          = ["00000000000000000000000000000000"]) by reflexivity.
  repeat split; try reflexivity.
  intros (ctx' & Hnext & Htid).
  rewrite (Hnext echoTraceID) in Hbody.
  unfold echoTraceID, ServeHTTP, HandlerFunc in Hbody.
  rewrite (echo_run _ w (mkResponse None ∅ "")) in Hbody by reflexivity.
  cbn [Request_Context Request_WithContext req_ctx] in Hbody.
  rewrite Htid in Hbody. discriminate Hbody.
Qed.

(** C5, as amended: for every request in whose headers the registered
    propagator finds no valid span context (no tracing header, or a
    malformed one), the middleware (either copy) never fails the request
    nor touches it: the next handler is invoked with the request rebound to
    its own incoming context, which is the request itself, so outcome,
    response status and body are exactly what the next handler makes them;
    the context the handler sees has no active trace whenever the incoming
    context carried no span.  For the TraceContext propagator the
    hypothesis covers an absent [traceparent] header and one outside the
    grammar ([TraceContext_extract_absent], [TraceContext_extract_malformed]). *)
Theorem middleware_without_trace_context `{sdk : SDK}
    (w : World) (rw : nat) (r : Request) :
  IsValid (prop_extract (otel_propagator w) (req_Header r)) = false ->
  (forall next,
      ServeHTTP (traceLib_provider.ExtractTraceInfoMiddleware next) rw r w
      = ServeHTTP next rw (Request_WithContext r (Request_Context r)) w
      /\ ServeHTTP (traceLib.ExtractTraceInfoMiddleware next) rw r w
         = ServeHTTP next rw (Request_WithContext r (Request_Context r)) w)
  /\ Request_WithContext r (Request_Context r) = r
  /\ (ctx_currentSpan (Request_Context r) = None ->
      IsValid (SpanContextFromContext (Request_Context r)) = false).
Proof.
  intros Hinvalid. split; [|split].
  - intros next.
    change traceLib.ExtractTraceInfoMiddleware
      with traceLib_provider.ExtractTraceInfoMiddleware.
    rewrite middleware_unfold, (Extract_invalid _ _ _ Hinvalid). auto.
  - apply WithContext_same.
  - intros Hnone. unfold SpanContextFromContext. rewrite Hnone. reflexivity.
Qed.

Lemma middleware_without_trace_context_witness :
  IsValid (prop_extract (otel_propagator world_initialised) (req_Header req_plain)) = false
  /\ ServeHTTP (traceLib_provider.ExtractTraceInfoMiddleware echoActive) 0 req_plain
       world_initialised
     = ServeHTTP echoActive 0 req_plain world_initialised.
Proof.
  split; [reflexivity|].
  destruct (middleware_without_trace_context (sdk := stubSDK) world_initialised 0 req_plain)
    as (Hnext & Hsame & _); [reflexivity|].
  rewrite Hsame in Hnext. apply Hnext.
Defined.

(** C5, as stated, fails for a request that arrives inside a span: without
    tracing headers the context handed on is the incoming one, not an empty
    one, and the next handler runs in the trace that was already active.
    Here the handler answers whether it sees an active trace. *)
Lemma middleware_keeps_incoming_span :
  let w := world_initialised in
  req_Header req_plain_in_span = ∅
  /\ resp_body <$> responses
       (snd (ServeHTTP (traceLib_provider.ExtractTraceInfoMiddleware echoActive)
               0 req_plain_in_span w))
     = ["active"]
  /\ ~ (exists ctx',
          (forall next,
              ServeHTTP (traceLib_provider.ExtractTraceInfoMiddleware next) 0
                req_plain_in_span w
              = ServeHTTP next 0 (Request_WithContext req_plain_in_span ctx') w)
          /\ IsValid (SpanContextFromContext ctx') = false).
Proof.
  intros w.
  assert (Hbody : resp_body <$> responses
            (snd (ServeHTTP (traceLib_provider.ExtractTraceInfoMiddleware echoActive)
                    0 req_plain_in_span w))
          = ["active"]) by reflexivity.
  repeat split; try reflexivity.
  intros (ctx' & Hnext & Hinvalid).
  rewrite (Hnext echoActive) in Hbody.
  unfold echoActive, ServeHTTP, HandlerFunc in Hbody.
  rewrite (echo_run _ w (mkResponse None ∅ "")) in Hbody by reflexivity.
  cbn [Request_Context Request_WithContext req_ctx] in Hbody.
  rewrite Hinvalid in Hbody. discriminate Hbody.
Qed.

(** * Every run of the initialisers

    The four ways through an initialiser: no address, a client that fails,
    a merge that fails, and success. *)

Section Runs.
Context `{sdk : SDK}.

Lemma merged_cases (serviceName : string) :
  (exists r, mergedResource serviceName = (r, None))
  \/ (exists r, mergedResource serviceName = (r, Some errMergeConflictSchemaURL)).
Proof.
  destruct (mergedResource serviceName) as [r [e|]] eqn:Hm; [right|left; eauto].
  assert (e = errMergeConflictSchemaURL) as ->
    by (apply (merge_error_is_conflict serviceName); by rewrite Hm).
  eauto.
Qed.

Lemma InitTracerProvider_cases (serviceName : string) (w : World) :
  traceLib_provider.InitTracerProvider serviceName w
    = (Returned (None, Some errMissingAddress), w)
  \/ (exists addr,
        environ w !! "JAEGER_ADDRESS" = Some addr /\ addr <> ""
        /\ ((exists e,
               jaeger_client (collectorAt addr) = inr e
               /\ traceLib_provider.InitTracerProvider serviceName w
                  = (Returned (None, Some e),
                     World_log w (call_jaeger_New (collectorAt addr))))
            \/ (exists exp r,
                  jaeger_client (collectorAt addr) = inl exp
                  /\ mergedResource serviceName = (r, Some errMergeConflictSchemaURL)
                  /\ traceLib_provider.InitTracerProvider serviceName w
                     = (Panicked errMergeConflictSchemaURL,
                        World_log w (call_jaeger_New (collectorAt addr))))
            \/ (exists exp r,
                  jaeger_client (collectorAt addr) = inl exp
                  /\ mergedResource serviceName = (r, None)
                  /\ traceLib_provider.InitTracerProvider serviceName w
                     = (Returned (Some (length (providers w)), None),
                        mkWorld (environ w)
                          (providers w ++ [batchedProvider (Some exp) r])
                          (Some (length (providers w))) propagation_TraceContext
                          (responses w)
                          (calls w ++ [call_jaeger_New (collectorAt addr);
                                       call_NewTracerProvider (length (providers w));
                                       call_SetTracerProvider (length (providers w));
                                       call_SetTextMapPropagator]))))).
Proof.
  rewrite InitTracerProvider_paths.
  destruct (traceLib_provider.newExporter w) as [o w1] eqn:Hexp.
  apply newExporter_inv in Hexp
    as [[-> ->]|(addr & Henv & Hne & -> & [(exp & Hcl & ->)|(e & Hcl & ->)])].
  - by left.
  - right. exists addr. do 2 (split; [done|]). right.
    destruct (merged_cases serviceName) as [[r Hm]|[r Hm]]; rewrite Hm.
    + right. exists exp, r. do 2 (split; [done|]). cbv zeta.
      unfold World_log. cbn [environ providers otel_tracerProvider otel_propagator
                             responses calls].
      by rewrite <- app_assoc.
    + left. exists exp, r. done.
  - right. exists addr. do 2 (split; [done|]). left. by exists e.
Qed.

Lemma InitTracer_cases (serviceName : string) (w : World) :
  tracer.InitTracer serviceName w = (Returned (None, Some errMissingAddress), w)
  \/ (exists addr,
        environ w !! "JAEGER_ADDRESS" = Some addr /\ addr <> ""
        /\ ((exists e,
               jaeger_client (collectorAt addr) = inr e
               /\ tracer.InitTracer serviceName w
                  = (Returned (None, Some e),
                     World_log w (call_jaeger_New (collectorAt addr))))
            \/ (exists exp r,
                  jaeger_client (collectorAt addr) = inl exp
                  /\ mergedResource serviceName = (r, Some errMergeConflictSchemaURL)
                  /\ tracer.InitTracer serviceName w
                     = (Panicked errMergeConflictSchemaURL,
                        World_log w (call_jaeger_New (collectorAt addr))))
            \/ (exists exp r,
                  jaeger_client (collectorAt addr) = inl exp
                  /\ mergedResource serviceName = (r, None)
                  /\ tracer.InitTracer serviceName w
                     = (Returned (Some (mkTracer (length (providers w)) (tracerName serviceName)), None),
                        mkWorld (environ w)
                          (providers w
                             ++ [mkTracerProvider [BatchSpanProcessor (Some exp)] r
                                   [tracerName serviceName] true])
                          (Some (length (providers w))) propagation_TraceContext
                          (responses w)
                          (calls w ++ [call_jaeger_New (collectorAt addr);
                                       call_NewTracerProvider (length (providers w));
                                       call_SetTracerProvider (length (providers w));
                                       call_Tracer (length (providers w)) serviceName;
                                       call_SetTextMapPropagator;
                                       call_Shutdown (length (providers w))]))))).
Proof.
  rewrite InitTracer_unfold.
  destruct (traceLib_provider.newExporter w) as [o w1] eqn:Hexp.
  apply newExporter_inv in Hexp
    as [[-> ->]|(addr & Henv & Hne & -> & [(exp & Hcl & ->)|(e & Hcl & ->)])].
  - by left.
  - right. exists addr. do 2 (split; [done|]). right.
    destruct (merged_cases serviceName) as [[r Hm]|[r Hm]]; rewrite Hm.
    + right. exists exp, r. do 2 (split; [done|]). cbv zeta.
      unfold World_log. cbn [environ providers otel_tracerProvider otel_propagator
                             responses calls].
      by rewrite <- app_assoc.
    + left. exists exp, r. done.
  - right. exists addr. do 2 (split; [done|]). left. by exists e.
Qed.
End Runs.

(** X1: every run of an initialisation entry point ends in exactly one of
    three ways: a value with a nil error, a nil value with an error, or a
    panic carrying the merge conflict.  Never both nil, never a value
    together with an error, never another panic; and [newExporter] itself
    never panics. *)
Theorem init_outcomes `{sdk : SDK} (serviceName : string) (w : World) :
  ((exists exp w', traceLib_provider.newExporter w = (Returned (Some exp, None), w'))
   \/ (exists e w', traceLib_provider.newExporter w = (Returned (None, Some e), w')))
  /\ ((exists tp w', traceLib_provider.InitTracerProvider serviceName w
                     = (Returned (Some tp, None), w'))
      \/ (exists e w', traceLib_provider.InitTracerProvider serviceName w
                       = (Returned (None, Some e), w'))
      \/ (exists w', traceLib_provider.InitTracerProvider serviceName w
                     = (Panicked errMergeConflictSchemaURL, w')))
  /\ ((exists t w', tracer.InitTracer serviceName w = (Returned (Some t, None), w'))
      \/ (exists e w', tracer.InitTracer serviceName w = (Returned (None, Some e), w'))
      \/ (exists w', tracer.InitTracer serviceName w
                     = (Panicked errMergeConflictSchemaURL, w')))
  /\ ((exists t w', traceLib.InitTracer serviceName w = (Returned (Some t, None), w'))
      \/ (exists e w', traceLib.InitTracer serviceName w = (Returned (None, Some e), w'))
      \/ (exists w', traceLib.InitTracer serviceName w
                     = (Panicked errMergeConflictSchemaURL, w'))).
Proof.
  change traceLib.InitTracer with tracer.InitTracer.
  split; [|split; [|split]].
  - destruct (traceLib_provider.newExporter w) as [o w1] eqn:Hexp.
    apply newExporter_inv in Hexp
      as [[-> ->]|(addr & _ & _ & -> & [(exp & _ & ->)|(e & _ & ->)])]; eauto.
  - destruct (InitTracerProvider_cases serviceName w)
      as [H|(addr & _ & _ & [(e & _ & H)|[(exp & r & _ & _ & H)|(exp & r & _ & _ & H)]])];
      rewrite H; eauto 6.
  - destruct (InitTracer_cases serviceName w)
      as [H|(addr & _ & _ & [(e & _ & H)|[(exp & r & _ & _ & H)|(exp & r & _ & _ & H)]])];
      rewrite H; eauto 6.
  - destruct (InitTracer_cases serviceName w)
      as [H|(addr & _ & _ & [(e & _ & H)|[(exp & r & _ & _ & H)|(exp & r & _ & _ & H)]])];
      rewrite H; eauto 6.
Qed.

(** X2: whatever its outcome, an initialisation entry point leaves the
    environment and the responses as they were, keeps every provider
    allocated before in place and unchanged while allocating at most one
    more, and only adds to the record of calls. *)
Theorem init_frame `{sdk : SDK} (serviceName : string) (w : World) :
  let kept (w' : World) :=
    environ w' = environ w
    /\ responses w' = responses w
    /\ providers w `prefix_of` providers w'
    /\ length (providers w') <= S (length (providers w))
    /\ calls w `prefix_of` calls w' in
  kept (snd (traceLib_provider.InitTracerProvider serviceName w))
  /\ kept (snd (tracer.InitTracer serviceName w))
  /\ kept (snd (traceLib.InitTracer serviceName w)).
Proof.
  intros kept. subst kept. change traceLib.InitTracer with tracer.InitTracer.
  assert (Hlog : forall c,
    environ (World_log w c) = environ w /\ responses (World_log w c) = responses w
    /\ providers w `prefix_of` providers (World_log w c)
    /\ length (providers (World_log w c)) <= S (length (providers w))
    /\ calls w `prefix_of` calls (World_log w c)).
  { intros c. cbn. repeat split; [done|lia|by eexists]. }
  assert (Hid : environ w = environ w /\ responses w = responses w
    /\ providers w `prefix_of` providers w
    /\ length (providers w) <= S (length (providers w))
    /\ calls w `prefix_of` calls w).
  { repeat split; [done|lia|done]. }
  split; [|split].
  - destruct (InitTracerProvider_cases serviceName w)
      as [H|(addr & _ & _ & [(e & _ & H)|[(exp & r & _ & _ & H)|(exp & r & _ & _ & H)]])];
      rewrite H; cbn [snd]; try apply Hlog; try apply Hid.
    cbn. rewrite length_app. cbn. repeat split; [by eexists|lia|by eexists].
  - destruct (InitTracer_cases serviceName w)
      as [H|(addr & _ & _ & [(e & _ & H)|[(exp & r & _ & _ & H)|(exp & r & _ & _ & H)]])];
      rewrite H; cbn [snd]; try apply Hlog; try apply Hid.
    cbn. rewrite length_app. cbn. repeat split; [by eexists|lia|by eexists].
  - destruct (InitTracer_cases serviceName w)
      as [H|(addr & _ & _ & [(e & _ & H)|[(exp & r & _ & _ & H)|(exp & r & _ & _ & H)]])];
      rewrite H; cbn [snd]; try apply Hlog; try apply Hid.
    cbn. rewrite length_app. cbn. repeat split; [by eexists|lia|by eexists].
Qed.

(** X3: when an initialisation entry point panics, the panic carries the
    merge conflict and nothing was registered, allocated or shut down: the
    state is the one before the call but for the single call to the Jaeger
    client. *)
Theorem init_panic_state `{sdk : SDK}
    (serviceName : string) (w : World) (e : error) (w' : World) :
  traceLib_provider.InitTracerProvider serviceName w = (Panicked e, w')
  \/ tracer.InitTracer serviceName w = (Panicked e, w')
  \/ traceLib.InitTracer serviceName w = (Panicked e, w') ->
  e = errMergeConflictSchemaURL
  /\ (exists addr,
        environ w !! "JAEGER_ADDRESS" = Some addr
        /\ w' = World_log w (call_jaeger_New (collectorAt addr)))
  /\ otel_tracerProvider w' = otel_tracerProvider w
  /\ otel_propagator w' = otel_propagator w
  /\ providers w' = providers w.
Proof.
  change traceLib.InitTracer with tracer.InitTracer.
  destruct (InitTracerProvider_cases serviceName w)
    as [H1|(addr & Henv & _ & [(e1 & _ & H1)|[(exp & r & _ & _ & H1)|(exp & r & _ & _ & H1)]])];
    destruct (InitTracer_cases serviceName w)
    as [H2|(addr2 & Henv2 & _ & [(e2 & _ & H2)|[(exp2 & r2 & _ & _ & H2)|(exp2 & r2 & _ & _ & H2)]])];
    rewrite H1, H2; intros [H|[H|H]]; try discriminate H;
    injection H as <- <-; (split; [done|]); (split; [|done]); eauto.
Qed.

Lemma init_panic_state_witness :
  let w := world0 (sdk := stubSDK_1_17) env_jaeger in
  let w' := World_log w (call_jaeger_New (collectorAt "http://localhost:14268/api/traces")) in
  traceLib_provider.InitTracerProvider "checkout-svc" w
  = (Panicked errMergeConflictSchemaURL, w')
  /\ otel_tracerProvider w' = otel_tracerProvider w
  /\ providers w' = providers w.
Proof.
  intros w w'. split; [reflexivity|].
  destruct (init_panic_state (sdk := stubSDK_1_17) "checkout-svc" w
              errMergeConflictSchemaURL w') as (_ & _ & Hg & _ & Hp).
  - left. reflexivity.
  - split; assumption.
Defined.

(** X4: the provider-returning and the tracer-returning initialisers fail
    alike: from the same state they return the same error, or panic with
    the same value, leaving the same state; and one succeeds exactly when
    the other does. *)
Theorem init_variants_agree `{sdk : SDK} (serviceName : string) (w : World) :
  (forall e w',
      traceLib_provider.InitTracerProvider serviceName w = (Returned (None, Some e), w')
      <-> tracer.InitTracer serviceName w = (Returned (None, Some e), w'))
  /\ (forall e w',
        traceLib_provider.InitTracerProvider serviceName w = (Panicked e, w')
        <-> tracer.InitTracer serviceName w = (Panicked e, w'))
  /\ ((exists tp w', traceLib_provider.InitTracerProvider serviceName w
                     = (Returned (Some tp, None), w'))
      <-> (exists t w', tracer.InitTracer serviceName w = (Returned (Some t, None), w')))
  /\ traceLib.InitTracer serviceName w = tracer.InitTracer serviceName w.
Proof.
  split; [|split; [|split; [|reflexivity]]];
    rewrite InitTracerProvider_paths, InitTracer_unfold;
    destruct (traceLib_provider.newExporter w) as [[[exp [e0|]]|v] w1];
    try destruct (mergedResource serviceName) as [r [e0|]]; cbv zeta;
    try (intros; split; intros H; injection H as <- <-; reflexivity);
    try (split; intros (? & ? & H); discriminate H);
    try (intros; split; intros H; discriminate H).
  split; eauto.
Qed.

(** * The merged resource *)

Section MergedResource.
Context `{sdk : SDK}.

Lemma serviceResource_attributes (serviceName : string) :
  res_attributes (serviceResource serviceName)
  = {[ semconv_ServiceNameKey := STRING serviceName ]}.
Proof. reflexivity. Qed.

(** A merge that succeeds yields the schema of semconv v1.12.0 and the
    default attributes with the service name written over them. *)
Lemma merged_shape (serviceName : string) (r : Resource) :
  mergedResource serviceName = (r, None) ->
  res_schemaURL r = semconv_SchemaURL
  /\ res_attributes r
     = <[semconv_ServiceNameKey := STRING serviceName]> (res_attributes resource_Default).
Proof.
  unfold mergedResource, resource_Merge.
  rewrite serviceResource_attributes, <- insert_union_singleton_l.
  change (res_schemaURL (serviceResource serviceName)) with semconv_SchemaURL.
  change (String.eqb semconv_SchemaURL "") with false. cbv iota.
  destruct (String.eqb (res_schemaURL resource_Default) "") eqn:H1.
  { intros [= <-]. done. }
  destruct (String.eqb (res_schemaURL resource_Default) semconv_SchemaURL) eqn:H2.
  { apply String.eqb_eq in H2. intros [= <-]. done. }
  discriminate.
Qed.

(** Whether the merge succeeds does not depend on the service name. *)
Lemma merged_success_any (name1 name2 : string) :
  snd (mergedResource name1) = None -> snd (mergedResource name2) = None.
Proof.
  intros H1. destruct (merged_cases name2) as [[r ->]|[r H2]]; [done|].
  assert (Hc : snd (mergedResource name2) = Some errMergeConflictSchemaURL)
    by (by rewrite H2).
  apply merge_conflict_iff in Hc. apply (merge_conflict_iff name1) in Hc.
  congruence.
Qed.
End MergedResource.

(** X5: [newTraceProvider] (each copy) panics exactly when the resource the
    process detects for itself has a schema URL and that URL is not the one
    of semconv v1.12.0; neither the exporter nor the service name matters. *)
Theorem newTraceProvider_panics_iff `{sdk : SDK}
    (exp : option Exporter) (serviceName : string) (w : World) :
  let conflict :=
    res_schemaURL resource_Default <> ""
    /\ res_schemaURL resource_Default <> "https://opentelemetry.io/schemas/1.12.0" in
  ((exists e w', traceLib_provider.newTraceProvider exp serviceName w = (Panicked e, w'))
   <-> conflict)
  /\ ((exists e w', tracer.newTraceProvider exp serviceName w = (Panicked e, w'))
      <-> conflict)
  /\ ((exists e w', traceLib.newTraceProvider exp serviceName w = (Panicked e, w'))
      <-> conflict).
Proof.
  intros conflict.
  change tracer.newTraceProvider with traceLib_provider.newTraceProvider.
  change traceLib.newTraceProvider with traceLib_provider.newTraceProvider.
  assert (H : (exists e w', traceLib_provider.newTraceProvider exp serviceName w
                            = (Panicked e, w')) <-> conflict).
  { subst conflict. rewrite <- (merge_conflict_iff serviceName).
    rewrite newTraceProvider_unfold.
    destruct (merged_cases serviceName) as [[r Hm]|[r Hm]]; rewrite Hm; cbn [snd].
    - split; [intros (? & ? & H); discriminate H|discriminate].
    - split; [done|eauto]. }
  auto.
Qed.

(** X6: the resource of a provider returned by [InitTracerProvider] is the
    resource the process detects for itself with [service.name] set to the
    service name: every other default attribute is kept, and the schema is
    that of semconv v1.12.0. *)
Theorem provider_resource_keeps_defaults `{sdk : SDK}
    (serviceName : string) (w : World) (tp : nat) (w' : World) :
  traceLib_provider.InitTracerProvider serviceName w = (Returned (Some tp, None), w') ->
  exists p,
    providers w' !! tp = Some p
    /\ res_schemaURL (tp_resource p) = "https://opentelemetry.io/schemas/1.12.0"
    /\ res_attributes (tp_resource p)
       = <["service.name" := STRING serviceName]> (res_attributes resource_Default)
    /\ forall k, k <> "service.name" ->
         res_attributes (tp_resource p) !! k = res_attributes resource_Default !! k.
Proof.
  intros Hrun.
  apply InitTracerProvider_success_inv in Hrun
    as (addr & exp & r & _ & _ & _ & Hmerge & [= ->] & ->).
  apply merged_shape in Hmerge as [Hurl Hattrs].
  exists (batchedProvider (Some exp) r). cbn [providers batchedProvider tp_resource].
  split; [by apply list_lookup_middle|].
  split; [exact Hurl|]. split; [exact Hattrs|].
  intros k Hk. rewrite Hattrs. by apply lookup_insert_ne.
Qed.

Lemma provider_resource_keeps_defaults_witness :
  exists p,
    providers world_initialised !! 0 = Some p
    /\ res_attributes (tp_resource p) !! "telemetry.sdk.language" = Some (STRING "go")
    /\ res_attributes (tp_resource p) !! "service.name" = Some (STRING "checkout-svc").
Proof.
  destruct (provider_resource_keeps_defaults (sdk := stubSDK) "checkout-svc"
              (world0 env_jaeger) 0 world_initialised)
    as (p & Hp & _ & Hattrs & Hother); [reflexivity|].
  exists p. split; [exact Hp|]. split.
  - rewrite Hother by discriminate. reflexivity.
  - rewrite Hattrs. apply lookup_insert_eq.
Defined.

(** * More on the middleware *)

Section Extraction.
Context `{sdk : SDK}.

Lemma Extract_idempotent (p : TextMapPropagator) (ctx : Context) (carrier : Header) :
  Extract p (Extract p ctx carrier) carrier = Extract p ctx carrier.
Proof. unfold Extract. destruct (IsValid (prop_extract p carrier)); reflexivity. Qed.

Lemma IsValid_WithRemote (sc : SpanContext) (remote : bool) :
  IsValid (WithRemote sc remote) = IsValid sc.
Proof. reflexivity. Qed.

End Extraction.

(** X7: the middleware is idempotent: wrapping a handler twice (with either
    copy, in any state, for any request) serves exactly as wrapping it
    once. *)
Theorem middleware_idempotent `{sdk : SDK}
    (next : Handler) (rw : nat) (r : Request) (w : World) :
  ServeHTTP (traceLib_provider.ExtractTraceInfoMiddleware
               (traceLib_provider.ExtractTraceInfoMiddleware next)) rw r w
  = ServeHTTP (traceLib_provider.ExtractTraceInfoMiddleware next) rw r w
  /\ ServeHTTP (traceLib.ExtractTraceInfoMiddleware
                  (traceLib.ExtractTraceInfoMiddleware next)) rw r w
     = ServeHTTP (traceLib.ExtractTraceInfoMiddleware next) rw r w
  /\ ServeHTTP (traceLib.ExtractTraceInfoMiddleware
                  (traceLib_provider.ExtractTraceInfoMiddleware next)) rw r w
     = ServeHTTP (traceLib_provider.ExtractTraceInfoMiddleware next) rw r w.
Proof.
  change traceLib.ExtractTraceInfoMiddleware
    with traceLib_provider.ExtractTraceInfoMiddleware.
  assert (H : ServeHTTP (traceLib_provider.ExtractTraceInfoMiddleware
                 (traceLib_provider.ExtractTraceInfoMiddleware next)) rw r w
              = ServeHTTP (traceLib_provider.ExtractTraceInfoMiddleware next) rw r w).
  { rewrite !middleware_unfold.
    cbn [Request_Context Request_WithContext req_ctx req_Header].
    rewrite Extract_idempotent. reflexivity. }
  auto.
Qed.

(** X8: in every state and for every request, whatever its headers, the
    middleware (either copy) changes nothing of the request but its
    context, keeps every value of that context other than the span, and
    hands on either the incoming context itself or one whose span context
    is valid and marked remote: it never installs an invalid or a local
    span context. *)
Theorem middleware_rebinds_context_only `{sdk : SDK} (w : World) (rw : nat) (r : Request) :
  exists ctx',
    (forall next,
        ServeHTTP (traceLib_provider.ExtractTraceInfoMiddleware next) rw r w
        = ServeHTTP next rw (Request_WithContext r ctx') w
        /\ ServeHTTP (traceLib.ExtractTraceInfoMiddleware next) rw r w
           = ServeHTTP next rw (Request_WithContext r ctx') w)
    /\ req_Method (Request_WithContext r ctx') = req_Method r
    /\ req_URL (Request_WithContext r ctx') = req_URL r
    /\ req_Header (Request_WithContext r ctx') = req_Header r
    /\ req_Body (Request_WithContext r ctx') = req_Body r
    /\ ctx_values ctx' = ctx_values (Request_Context r)
    /\ (ctx' = Request_Context r
        \/ exists sc, ctx_currentSpan ctx' = Some sc
                      /\ IsValid sc = true /\ sc_Remote sc = true).
Proof.
  exists (Extract (otel_propagator w) (Request_Context r) (req_Header r)).
  split; [intros next; split; reflexivity|].
  do 4 (split; [reflexivity|]).
  unfold Extract.
  destruct (IsValid (prop_extract (otel_propagator w) (req_Header r))) eqn:Hv.
  - split; [reflexivity|]. right. eexists. split; [reflexivity|].
    rewrite IsValid_WithRemote. auto.
  - split; [reflexivity|]. by left.
Qed.





(** X11: [InitTracerProvider] is not a singleton: called again after a
    successful call, with any service name, it succeeds again, allocates
    another provider and registers that one; the provider of the first
    call stays as it was, not shut down, and is no longer the global one. *)
Theorem InitTracerProvider_again `{sdk : SDK}
    (name1 name2 : string) (w : World) (tp1 : nat) (w1 : World) :
  traceLib_provider.InitTracerProvider name1 w = (Returned (Some tp1, None), w1) ->
  exists w2,
    traceLib_provider.InitTracerProvider name2 w1 = (Returned (Some (S tp1), None), w2)
    /\ otel_tracerProvider w1 = Some tp1
    /\ otel_tracerProvider w2 = Some (S tp1)
    /\ (exists p1, providers w1 !! tp1 = Some p1 /\ providers w2 !! tp1 = Some p1
                   /\ tp_isShutdown p1 = false)
    /\ (exists p2, providers w1 !! S tp1 = None /\ providers w2 !! S tp1 = Some p2
                   /\ tp_isShutdown p2 = false).
Proof.
  intros H1.
  apply InitTracerProvider_success_inv in H1
    as (addr & exp & r & Henv & Hne & Hcl & Hmerge & [= ->] & ->).
  assert (Hm2 : snd (mergedResource name2) = None)
    by (apply (merged_success_any name1); by rewrite Hmerge).
  destruct (mergedResource name2) as [r2 o2] eqn:Hmerge2. cbn in Hm2. subst o2.
  set (w1 := mkWorld _ _ _ _ _ _).
  destruct (init_runs name2 w1 addr exp r2) as [[w2 H2] _]; try done.
  exists w2. pose proof H2 as H2'.
  apply InitTracerProvider_success_inv in H2'
    as (addr' & exp' & r' & _ & _ & _ & _ & _ & ->).
  assert (Hlen : length (providers w1) = S (length (providers w)))
    by (subst w1; cbn [providers]; rewrite length_app; cbn [length]; lia).
  rewrite Hlen in *. split; [exact H2|].
  cbn [providers otel_tracerProvider]. subst w1. cbn [providers otel_tracerProvider].
  split; [reflexivity|]. split; [reflexivity|]. split.
  - exists (batchedProvider (Some exp) r). split; [by apply list_lookup_middle|].
    split; [|reflexivity].
    rewrite lookup_app_l by (rewrite length_app; cbn; lia).
    by apply list_lookup_middle.
  - eexists.
    split; [apply lookup_ge_None_2; rewrite length_app; cbn; lia|].
    split; [apply list_lookup_middle; rewrite length_app; cbn; lia|reflexivity].
Qed.

Lemma InitTracerProvider_again_witness :
  exists w2 : World (sdk := stubSDK),
    traceLib_provider.InitTracerProvider "billing-svc" world_initialised
    = (Returned (Some 1, None), w2)
    /\ otel_tracerProvider world_initialised = Some 0
    /\ otel_tracerProvider w2 = Some 1
    /\ (exists p1, providers world_initialised !! 0 = Some p1 /\ providers w2 !! 0 = Some p1
                   /\ tp_isShutdown p1 = false)
    /\ (exists p2, providers world_initialised !! 1 = None /\ providers w2 !! 1 = Some p2
                   /\ tp_isShutdown p2 = false).
Proof.
  apply (InitTracerProvider_again (sdk := stubSDK) "checkout-svc" "billing-svc"
           (world0 env_jaeger) 0 world_initialised).
  reflexivity.
Defined.
